(** * Retrieval-augmented insight generator: indexing pipeline, retrieval
      handler and HTTP endpoint

    A shallow embedding of [indexing_pipeline.py], [retrieval_handler.py],
    [app.py] and, up to its call of [asyncio.gather], [run_indexing.py].  The
    Python code is dynamically typed orchestration over four
    external collaborators (document parser, embedding client, vector store,
    generation client), so the embedding has three layers:

    - a universe [PyVal] of the Python values that flow through the code
      (None, bool, int, str, list, dict with string keys) and the handful of
      builtin operations the code applies to them, each returning either a
      value or the exception Python raises;
    - the collaborators as an interface ([Collaborators]) whose calls are
      recorded in a call log, next to the state of the vector store;
    - the three source files, function by function, in a state-and-exception
      monad over that world.

    Conventions.  A Python [str] is the [string] of its UTF-8 bytes, a lone
    surrogate being written in the same scheme (three bytes from 237 on).  A
    dict keeps its keys in insertion order.  Floats are not modelled (an
    embedding vector is an opaque value).  Exceptions are instances of
    [Exception].

    [print] writes to [sys.stdout], which refuses a text its encoder cannot
    encode.  That is modelled where the text comes from the request: the view
    function echoes the start of the selection before its [try].  The other
    calls of [print] write literals, counts, base names of the files being
    indexed and the text of an exception; of those only the evaluation of the
    printed expression is modelled, wherever it can raise. *)

From stdpp Require Import gmap strings list fin_maps pretty.
From Stdlib Require Import Ascii.

#[local] Set Warnings "-register-all".
#[local] Open Scope Z_scope.

(** ** Exceptions and results *)

Inductive exn :=
| TypeError
| ValueError
| KeyError
| IndexError
| AttributeError
| UnicodeEncodeError
| ServiceError (name : string).

Inductive res (A : Type) :=
| Ok (a : A)
| Raise (e : exn).
Arguments Ok {A} a.
Arguments Raise {A} e.

Definition res_bind {A B} (r : res A) (k : A → res B) : res B :=
  match r with
  | Ok a => k a
  | Raise e => Raise e
  end.

Fixpoint res_mapM {A B} (f : A → res B) (l : list A) : res (list B) :=
  match l with
  | [] => Ok []
  | x :: l' =>
      res_bind (f x) (λ y, res_bind (res_mapM f l') (λ ys, Ok (y :: ys)))
  end.

Declare Scope res_scope.
Delimit Scope res_scope with R.
Notation "x ← y ; z" := (res_bind y (λ x, z))
  (at level 20, y at level 100, z at level 200, only parsing) : res_scope.

(** ** Python values *)

(** A dict with str keys: the keys in insertion order, and the items.  In a
    dict that Python can build the keys are the domain of the items, each
    once ([dict_wf]). *)
Record ordered_dict (V : Type) := mkDict {
  dict_keys : list string;
  dict_items : gmap string V;
}.
Arguments mkDict {V} dict_keys dict_items.
Arguments dict_keys {V} _.
Arguments dict_items {V} _.

#[global] Instance ordered_dict_lookup {V} : Lookup string V (ordered_dict V) :=
  λ key d, dict_items d !! key.

Definition dict_wf {V} (d : ordered_dict V) : Prop :=
  NoDup (dict_keys d) ∧ ∀ key, key ∈ dict_keys d ↔ is_Some (d !! key).

(** [d[key] = value]: a new key goes to the end, a key already there keeps
    its place. *)
Definition dict_set {V} (key : string) (value : V) (d : ordered_dict V) : ordered_dict V :=
  mkDict (if decide (key ∈ dict_keys d) then dict_keys d else dict_keys d ++ [key])
         (<[key := value]> (dict_items d)).

(** The dict literal [{key: value, ...}]. *)
Definition py_dict {V} (items : list (string * V)) : ordered_dict V :=
  foldl (λ d item, dict_set item.1 item.2 d) (mkDict [] ∅) items.

Inductive PyVal :=
| VNone
| VBool (b : bool)
| VInt (z : Z)
| VStr (s : string)
| VList (l : list PyVal)
| VDict (d : ordered_dict PyVal).

Abbreviation PyDict := (ordered_dict PyVal).

(** Builtins that are not spelled out here: [int] on a [str] (sign,
    underscores, surrounding blanks, Unicode digits) and [repr] of a
    container. *)
Class Builtins := {
  int_of_str : string → option Z;
  repr : PyVal → string;
}.

(** [sys.stdout] as [print] meets it: the texts its encoder accepts.  Which
    they are depends on the encoding and the error handler the process was
    started with. *)
Class Console := {
  stdout_encodes : string → bool;
}.

(** *** Strings as UTF-8 *)

Definition nl : string := String "010"%char EmptyString.
Definition dquote : string := String "034"%char EmptyString.

Definition is_continuation (c : ascii) : bool :=
  let n := nat_of_ascii c in
  (128 <=? n)%nat && (n <? 192)%nat.

Definition utf8_step (c : ascii) (acc : string * list string) : string * list string :=
  if is_continuation c then (String c acc.1, acc.2)
  else (EmptyString, String c acc.1 :: acc.2).

(** The code points of a string, each as the string of its bytes. *)
Definition utf8_chars (s : string) : list string :=
  let acc := foldr utf8_step (EmptyString, []) (String.list_ascii_of_string s) in
  match acc.1 with
  | EmptyString => acc.2
  | pending => pending :: acc.2
  end.

Definition is_substring (k s : string) : bool :=
  match String.index 0 k s with
  | Some _ => true
  | None => false
  end.

(** [os.path.basename] (POSIX): what follows the last slash. *)
Fixpoint has_slash (s : string) : bool :=
  match s with
  | EmptyString => false
  | String c s' => if decide (c = "/"%char) then true else has_slash s'
  end.

Fixpoint basename (p : string) : string :=
  match p with
  | EmptyString => EmptyString
  | String c p' =>
      if has_slash p' then basename p'
      else if decide (c = "/"%char) then p'
      else p
  end.

(** *** [str.strip()] *)

Definition bytes (l : list nat) : list ascii := ascii_of_nat <$> l.

(** UTF-8 encodings of the code points [str.isspace] accepts. *)
Definition WHITESPACE : list (list ascii) :=
  bytes <$>
    [ [9]; [10]; [11]; [12]; [13]; [28]; [29]; [30]; [31]; [32];
      [194; 133]; [194; 160]; [225; 154; 128];
      [226; 128; 128]; [226; 128; 129]; [226; 128; 130]; [226; 128; 131];
      [226; 128; 132]; [226; 128; 133]; [226; 128; 134]; [226; 128; 135];
      [226; 128; 136]; [226; 128; 137]; [226; 128; 138];
      [226; 128; 168]; [226; 128; 169]; [226; 128; 175];
      [226; 129; 159]; [227; 128; 128] ]%nat.

Definition drop_prefix (w s : list ascii) : option (list ascii) :=
  if decide (take (length w) s = w) then Some (drop (length w) s) else None.

Definition drop_some_prefix (ws : list (list ascii)) (s : list ascii) : option (list ascii) :=
  head (omap (λ w, drop_prefix w s) ws).

Fixpoint lstrip_fuel (ws : list (list ascii)) (fuel : nat) (s : list ascii) : list ascii :=
  match fuel with
  | O => s
  | S fuel' =>
      match drop_some_prefix ws s with
      | Some s' => lstrip_fuel ws fuel' s'
      | None => s
      end
  end.

Definition lstrip (ws : list (list ascii)) (s : list ascii) : list ascii :=
  lstrip_fuel ws (length s) s.

Definition rstrip (ws : list (list ascii)) (s : list ascii) : list ascii :=
  reverse (lstrip (reverse <$> ws) (reverse s)).

Definition py_strip (s : string) : string :=
  String.string_of_list_ascii
    (rstrip WHITESPACE (lstrip WHITESPACE (String.list_ascii_of_string s))).

(** *** Builtin operations on values *)

Definition py_truthy (v : PyVal) : bool :=
  match v with
  | VNone => false
  | VBool b => b
  | VInt z => negb (z =? 0)
  | VStr s => match s with EmptyString => false | _ => true end
  | VList l => match l with [] => false | _ => true end
  | VDict d => match map_to_list (dict_items d) with [] => false | _ => true end
  end.

(** Iteration: a list yields its items, a str its characters, a dict its
    keys in insertion order. *)
Definition py_iter (v : PyVal) : res (list PyVal) :=
  match v with
  | VList l => Ok l
  | VStr s => Ok (VStr <$> utf8_chars s)
  | VDict d => Ok (VStr <$> dict_keys d)
  | _ => Raise TypeError
  end.

Definition py_len (v : PyVal) : res nat :=
  match v with
  | VList l => Ok (length l)
  | VStr s => Ok (length (utf8_chars s))
  | VDict d => Ok (size (dict_items d))
  | _ => Raise TypeError
  end.

(** [v.get(key, dflt)]: only a dict has the method. *)
Definition py_get (v : PyVal) (key : string) (dflt : PyVal) : res PyVal :=
  match v with
  | VDict d => Ok (default dflt (d !! key))
  | _ => Raise AttributeError
  end.

(** [v[key]] for a str key. *)
Definition py_getitem_str (v : PyVal) (key : string) : res PyVal :=
  match v with
  | VDict d => match d !! key with Some x => Ok x | None => Raise KeyError end
  | _ => Raise TypeError
  end.

(** [v[i]] for an index [i >= 0]. *)
Definition py_getitem_nat (v : PyVal) (i : nat) : res PyVal :=
  match v with
  | VList l => match l !! i with Some x => Ok x | None => Raise IndexError end
  | VStr s => match utf8_chars s !! i with Some c => Ok (VStr c) | None => Raise IndexError end
  | VDict _ => Raise KeyError
  | _ => Raise TypeError
  end.

(** [v[:n]]; a dict takes the slice for a key and refuses it (unhashable
    before Python 3.12, a missing key from then on). *)
Definition py_slice_to (v : PyVal) (n : nat) : res PyVal :=
  match v with
  | VList l => Ok (VList (take n l))
  | VStr s => Ok (VStr (String.concat EmptyString (take n (utf8_chars s))))
  | _ => Raise TypeError
  end.

(** [key in v] for a str [key]. *)
Definition py_contains_str (key : string) (v : PyVal) : res bool :=
  match v with
  | VDict d => Ok (bool_decide (is_Some (d !! key)))
  | VList l => Ok (existsb (λ x, match x with VStr s => bool_decide (s = key) | _ => false end) l)
  | VStr s => Ok (is_substring key s)
  | _ => Raise TypeError
  end.

Definition as_str (v : PyVal) : res string :=
  match v with
  | VStr s => Ok s
  | _ => Raise TypeError
  end.

(** [sep.join(v)] *)
Definition py_join (sep : string) (v : PyVal) : res string :=
  (items ← py_iter v;
   strs ← res_mapM as_str items;
   Ok (String.concat sep strs))%R.

Section WithBuiltins.
Context {builtins : Builtins}.

(** [int(v)] *)
Definition py_int (v : PyVal) : res Z :=
  match v with
  | VInt z => Ok z
  | VBool b => Ok (if b then 1 else 0)
  | VStr s => match int_of_str s with Some z => Ok z | None => Raise ValueError end
  | _ => Raise TypeError
  end.

(** [str(v)], as an f-string field renders it. *)
Definition py_str (v : PyVal) : string :=
  match v with
  | VNone => "None"
  | VBool b => if b then "True" else "False"
  | VInt z => pretty z
  | VStr s => s
  | _ => repr v
  end.
End WithBuiltins.

(** [print(text)]: the one way it fails here is the encoder of
    [sys.stdout] refusing the text. *)
Definition py_print {console : Console} (text : string) : res unit :=
  if stdout_encodes text then Ok () else Raise UnicodeEncodeError.

(** ** The collaborators and the world *)

(** One entry per call that reaches a collaborator, with its arguments. *)
Inductive Call :=
| EmbedContent (model : string) (content : PyVal) (task_type : string)
| EmbedContentAsync (model : string) (content : PyVal) (task_type : string)
| CollectionAdd (embeddings : PyVal) (documents : list string)
    (metadatas : list (gmap string PyVal)) (ids : list string)
| CollectionQuery (query_embeddings : PyVal) (n_results : Z)
| GenerateContent (prompt : string).

(** What the code imports and does not define: [parse_document_to_sections]
    (document_parser), [genai.embed_content] and its async twin, the
    collection's [add] and [query], and [generate_content(prompt).text] of the
    generation model.  [open_services] stands for what the constructors do
    after the API-key check (configure, open the collection, build the model). *)
Class Collaborators (Store : Type) := {
  parse_document_to_sections : string → string → string → res PyVal;
  embed_content : string → PyVal → string → res PyVal;
  embed_content_async : string → PyVal → string → res PyVal;
  collection_add :
    Store → PyVal → list string → list (gmap string PyVal) → list string → res Store;
  collection_query : Store → PyVal → Z → res PyVal;
  generate_content : string → res string;
  open_services : res unit;
}.

Record World (Store : Type) := mkWorld {
  store : Store;
  calls : list Call;
}.
Arguments mkWorld {Store} store calls.
Arguments store {Store} w.
Arguments calls {Store} w.

Definition log {Store} (c : Call) (w : World Store) : World Store :=
  mkWorld (store w) (calls w ++ [c]).

(** State and exceptions: a computation maps a world to a result and the
    world it leaves, also when it raises. *)
Definition M (Store A : Type) : Type := World Store → res A * World Store.

Definition M_ret {Store A} (a : A) : M Store A := λ w, (Ok a, w).

Definition M_bind {Store A B} (m : M Store A) (k : A → M Store B) : M Store B :=
  λ w,
    match m w with
    | (Ok a, w') => k a w'
    | (Raise e, w') => (Raise e, w')
    end.

Declare Scope M_scope.
Delimit Scope M_scope with M.
Notation "x ← y ; z" := (M_bind y (λ x, z))
  (at level 20, y at level 100, z at level 200, only parsing) : M_scope.
Notation "' x ← y ; z" := (M_bind y (λ x, z))
  (at level 20, x pattern, y at level 100, z at level 200, only parsing) : M_scope.

Definition lift {Store A} (r : res A) : M Store A := λ w, (r, w).

(** [try: body / except Exception as e: handler e] *)
Definition try_except {Store A} (body : M Store A) (handler : exn → M Store A) : M Store A :=
  λ w,
    match body w with
    | (Ok a, w') => (Ok a, w')
    | (Raise e, w') => handler e w'
    end.

Section Services.
Context {Store : Type} {services : Collaborators Store}.

Definition call_embed_content (model : string) (content : PyVal) (task_type : string)
  : M Store PyVal :=
  λ w, (embed_content model content task_type, log (EmbedContent model content task_type) w).

Definition call_embed_content_async (model : string) (content : PyVal) (task_type : string)
  : M Store PyVal :=
  λ w, (embed_content_async model content task_type,
        log (EmbedContentAsync model content task_type) w).

Definition call_collection_add (embeddings : PyVal) (documents : list string)
    (metadatas : list (gmap string PyVal)) (ids : list string) : M Store PyVal :=
  λ w,
    let w' := log (CollectionAdd embeddings documents metadatas ids) w in
    match collection_add (store w) embeddings documents metadatas ids with
    | Ok s => (Ok VNone, mkWorld s (calls w'))
    | Raise e => (Raise e, w')
    end.

Definition call_collection_query (query_embeddings : PyVal) (n_results : Z)
  : M Store PyVal :=
  λ w, (collection_query (store w) query_embeddings n_results,
        log (CollectionQuery query_embeddings n_results) w).

Definition call_generate_content (prompt : string) : M Store string :=
  λ w, (generate_content prompt, log (GenerateContent prompt) w).
End Services.

(** ** indexing_pipeline.py *)

Definition EMBEDDING_MODEL : string := "models/text-embedding-004".
Definition CHROMA_COLLECTION_NAME : string := "hackathon_collection".

Section IndexingPipeline.
Context {builtins : Builtins} {Store : Type} {services : Collaborators Store}.

Definition _prepare_chunk_for_embedding (chunk : PyVal) : res string :=
  (full_path ← py_get chunk "full_path" (VList []);
   full_path_str ← py_join " > " full_path;
   content ← py_get chunk "content" (VStr EmptyString);
   Ok ("Section Path: " +:+ full_path_str +:+ nl +:+ "Content: " +:+ py_str content))%R.

(** The dict literal appended to [metadatas_to_upsert].  Its keys are always
    the five of the literal, in that order, so the map of its items stands
    for it. *)
Definition chunk_metadata (chunk : PyVal) : res (gmap string PyVal) :=
  (document_name ← py_get chunk "document_name" (VStr EmptyString);
   page_number_field ← py_get chunk "page_number" (VInt 0);
   page_number ← py_int page_number_field;
   section_title ← py_get chunk "section_title" (VStr EmptyString);
   full_path_field ← py_get chunk "full_path" (VList []);
   full_path ← py_join " > " full_path_field;
   original_content ← py_get chunk "content" (VStr EmptyString);
   Ok (<["document_name" := document_name]>
       (<["page_number" := VInt page_number]>
       (<["section_title" := section_title]>
       (<["full_path" := VStr full_path]>
       (<["original_content" := original_content]> ∅))))))%R.

Definition chunk_id (base : string) (i : nat) : string :=
  base +:+ "_" +:+ pretty i.

(** [for i, chunk in enumerate(parsed_data)], from position [i] on, with the
    two lists built so far. *)
Fixpoint upsert_loop (base : string) (i : nat) (chunks : list PyVal)
    (metadatas_to_upsert : list (gmap string PyVal)) (ids_to_upsert : list string)
  : res (list (gmap string PyVal) * list string) :=
  match chunks with
  | [] => Ok (metadatas_to_upsert, ids_to_upsert)
  | chunk :: rest =>
      (metadata ← chunk_metadata chunk;
       upsert_loop base (S i) rest
         (metadatas_to_upsert ++ [metadata])
         (ids_to_upsert ++ [chunk_id base i]))%R
  end.

Definition process_and_index_pdf_async (pdf_path model_path encoder_path : string)
  : M Store PyVal :=
  (parsed_data ← lift (parse_document_to_sections pdf_path model_path encoder_path);
   if negb (py_truthy parsed_data) then M_ret VNone
   else
     _ ← lift (py_len parsed_data);
     chunks ← lift (py_iter parsed_data);
     texts_to_embed ← lift (res_mapM _prepare_chunk_for_embedding chunks);
     result ← call_embed_content_async EMBEDDING_MODEL
                (VList (VStr <$> texts_to_embed)) "RETRIEVAL_DOCUMENT";
     embeddings ← lift (py_getitem_str result "embedding");
     _ ← lift (py_len embeddings);
     let documents_to_upsert := texts_to_embed in
     '(metadatas_to_upsert, ids_to_upsert) ←
       lift (upsert_loop (basename pdf_path) 0 chunks [] []);
     _ ← call_collection_add embeddings documents_to_upsert
           metadatas_to_upsert ids_to_upsert;
     M_ret VNone)%M.
End IndexingPipeline.

(** ** retrieval_handler.py *)

Definition GENERATION_MODEL : string := "gemini-1.5-flash-latest".

(** [INSIGHTS_PROMPT_TEMPLATE], cut at its two fields. *)
Definition INSIGHTS_PROMPT_HEAD : string :=
  String.concat nl
    [ EmptyString;
      "You are an expert AI assistant for a document analysis tool.";
      "Your task is to analyze a user's selected text and, based ONLY on the provided context from their document library, generate three types of insights.";
      "The context below consists of sections from documents the user has previously read.";
      EmptyString;
      "Analyze the user's selection in light of the context and provide the following:";
      "1.  **Contradictions (⚔️):** Identify any statements in the context that directly contradict or challenge the user's selected text. If none, state that.";
      "2.  **Enhancements (💡):** Find any information in the context that builds upon, refines, or provides a more detailed example of the concept in the user's selection. If none, state that.";
      "3.  **Connections (🔗):** Point out any related concepts or similar ideas from the context that are not direct enhancements but are relevant to the user's selection. If none, state that.";
      EmptyString;
      "Your response must be concise, grounded in the provided context, and structured clearly under these three headings.";
      EmptyString;
      "---";
      "CONTEXT:";
      EmptyString ].

Definition INSIGHTS_PROMPT_MID : string :=
  String.concat nl [ EmptyString; "---"; EmptyString; "USER'S SELECTED TEXT:"; dquote ].

Definition INSIGHTS_PROMPT_TAIL : string :=
  String.concat nl [ dquote; EmptyString; "---"; "INSIGHTS:"; EmptyString ].

(** [INSIGHTS_PROMPT_TEMPLATE.format(context=..., user_selection=...)] *)
Definition INSIGHTS_PROMPT_TEMPLATE_format (context user_selection : string) : string :=
  INSIGHTS_PROMPT_HEAD +:+ context +:+ INSIGHTS_PROMPT_MID +:+ user_selection
    +:+ INSIGHTS_PROMPT_TAIL.

Definition NO_CONTEXT_MESSAGE : string :=
  "No relevant context was found in your library to generate insights.".

Definition API_ERROR_MESSAGE : string :=
  "Error: Could not generate insights due to an API issue.".

Definition DEFAULT_TOP_K : Z := 5.

Inductive RetrievalHandler := mkRetrievalHandler.

Section RetrievalHandlerMethods.
Context {builtins : Builtins} {Store : Type} {services : Collaborators Store}.

(** [RetrievalHandler.__init__] *)
Definition RetrievalHandler_init (google_api_key : PyVal) : res RetrievalHandler :=
  if negb (py_truthy google_api_key) then Raise ValueError
  else
    (_ ← open_services;
     Ok mkRetrievalHandler)%R.

Definition retrieve_relevant_sections (user_selection : PyVal) (top_k : Z)
  : M Store PyVal :=
  (result ← call_embed_content EMBEDDING_MODEL user_selection "RETRIEVAL_QUERY";
   query_embedding ← lift (py_getitem_str result "embedding");
   query_results ← call_collection_query (VList [query_embedding]) top_k;
   metadatas ← lift (py_get query_results "metadatas" (VList [VList []]));
   retrieved_metadatas ← lift (py_getitem_nat metadatas 0);
   _ ← lift (py_len retrieved_metadatas);
   M_ret retrieved_metadatas)%M.

(** One item of the list comprehension that renders the context. *)
Definition format_context_item (item : PyVal) : res string :=
  (document_name ← py_get item "document_name" (VStr "N/A");
   page_number ← py_get item "page_number" (VStr "N/A");
   original_content ← py_get item "original_content" (VStr EmptyString);
   Ok ("From '" +:+ py_str document_name +:+ "' (Page " +:+ py_str page_number
         +:+ "):" +:+ nl +:+ py_str original_content))%R.

Definition CONTEXT_SEPARATOR : string := nl +:+ nl +:+ "---" +:+ nl +:+ nl.

(** The prompt [generate_insights] builds before it calls the model. *)
Definition build_prompt (user_selection context_sections : PyVal) : res string :=
  (items ← py_iter context_sections;
   parts ← res_mapM format_context_item items;
   let context_str := String.concat CONTEXT_SEPARATOR parts in
   Ok (INSIGHTS_PROMPT_TEMPLATE_format context_str (py_str user_selection)))%R.

Definition generate_insights (user_selection context_sections : PyVal)
  : M Store string :=
  if negb (py_truthy context_sections) then M_ret NO_CONTEXT_MESSAGE
  else
    (prompt ← lift (build_prompt user_selection context_sections);
     try_except
       (text ← call_generate_content prompt;
        M_ret (py_strip text))
       (λ e, M_ret API_ERROR_MESSAGE))%M.

Definition get_insights_for_selection (user_selection : PyVal) : M Store PyVal :=
  (retrieved_sections ← retrieve_relevant_sections user_selection DEFAULT_TOP_K;
   generated_insights ← generate_insights user_selection retrieved_sections;
   M_ret (VDict (py_dict [("retrieved_sections", retrieved_sections);
                          ("generated_insights", VStr generated_insights)])))%M.
End RetrievalHandlerMethods.

(** ** app.py *)

(** What a view function returns: the JSON body and the status code. *)
Record Response := mkResponse {
  body : PyVal;
  status : Z;
}.

Definition error_body (message : string) : PyVal :=
  VDict (py_dict [("error", VStr message)]).

Definition NOT_INITIALIZED_MESSAGE : string := "Backend handler is not initialized.".
Definition MISSING_SELECTION_MESSAGE : string := "Missing 'selection' key in request body.".
Definition INTERNAL_ERROR_MESSAGE : string := "An internal error occurred.".

Section App.
Context {builtins : Builtins} {console : Console}
  {Store : Type} {services : Collaborators Store}.

(** The module-level [try: retrieval_handler = RetrievalHandler(...)]. *)
Definition startup (GOOGLE_API_KEY : PyVal) : option RetrievalHandler :=
  match RetrievalHandler_init GOOGLE_API_KEY with
  | Ok handler => Some handler
  | Raise _ => None
  end.

(** [not data or 'selection' not in data] *)
Definition lacks_selection (data : PyVal) : res bool :=
  if negb (py_truthy data) then Ok true
  else
    (found ← py_contains_str "selection" data;
     Ok (negb found))%R.

(** The line the view function prints before it calls the handler, for the
    slice [shown] of the selection. *)
Definition received_line (shown : PyVal) : string :=
  nl +:+ "Received request for selection: '" +:+ py_str shown +:+ "...'".

(** The view function; [request_json] is what [request.get_json()] gives. *)
Definition get_insights (retrieval_handler : option RetrievalHandler)
    (request_json : res PyVal) : M Store Response :=
  match retrieval_handler with
  | None => M_ret (mkResponse (error_body NOT_INITIALIZED_MESSAGE) 500)
  | Some _ =>
      (data ← lift request_json;
       missing ← lift (lacks_selection data);
       if (missing : bool)
       then M_ret (mkResponse (error_body MISSING_SELECTION_MESSAGE) 400)
       else
         user_selection ← lift (py_getitem_str data "selection");
         shown ← lift (py_slice_to user_selection 50);
         _ ← lift (py_print (received_line shown));
         try_except
           (results ← get_insights_for_selection user_selection;
            M_ret (mkResponse results 200))
           (λ e, M_ret (mkResponse (error_body INTERNAL_ERROR_MESSAGE) 500)))%M
  end.
End App.

(** ** The data model of the statements *)

(** Modelled from the spec: the Section Chunk of the data model, as the
    parser is documented to produce it ([document_parser] is imported by the
    pipeline and is not among the sources). *)
Record SectionChunk := mkSectionChunk {
  sc_document_name : string;
  sc_page_number : Z;
  sc_section_title : string;
  sc_full_path : list string;
  sc_content : string;
}.

(** The fields of the dict a Section Chunk is handed over as. *)
Definition chunk_fields (c : SectionChunk) : gmap string PyVal :=
  <["document_name" := VStr (sc_document_name c)]>
  (<["page_number" := VInt (sc_page_number c)]>
  (<["section_title" := VStr (sc_section_title c)]>
  (<["full_path" := VList (VStr <$> sc_full_path c)]>
  (<["content" := VStr (sc_content c)]> ∅)))).



(** The metadata map of the Indexed Entry of a Section Chunk. *)
Definition indexed_metadata (c : SectionChunk) : gmap string PyVal :=
  <["document_name" := VStr (sc_document_name c)]>
  (<["page_number" := VInt (sc_page_number c)]>
  (<["section_title" := VStr (sc_section_title c)]>
  (<["full_path" := VStr (String.concat " > " (sc_full_path c))]>
  (<["original_content" := VStr (sc_content c)]> ∅)))).

(** The rendering of one retrieved metadata map in the prompt, and the whole
    prompt for a list of them, written out. *)
Section Rendering.
Context {builtins : Builtins}.

Definition context_item_text (d : PyDict) : string :=
  "From '" +:+ py_str (default (VStr "N/A") (d !! "document_name"))
    +:+ "' (Page " +:+ py_str (default (VStr "N/A") (d !! "page_number"))
    +:+ "):" +:+ nl +:+ py_str (default (VStr EmptyString) (d !! "original_content")).

Definition rendered_prompt (user_selection : PyVal) (ms : list PyDict)
  : string :=
  INSIGHTS_PROMPT_TEMPLATE_format
    (String.concat CONTEXT_SEPARATOR (context_item_text <$> ms))
    (py_str user_selection).
End Rendering.

(** A byte string made of whitespace characters only. *)
Definition blank (ws : list (list ascii)) (l : list ascii) : Prop :=
  ∃ parts, Forall (λ w, w ∈ ws) parts ∧ l = concat parts.

(** No whitespace character starts or ends [t]. *)
Definition trimmed (ws : list (list ascii)) (t : list ascii) : Prop :=
  ∀ w, w ∈ ws → ¬ w `prefix_of` t ∧ ¬ w `suffix_of` t.

(** [t] is [text] with its leading and trailing whitespace removed. *)
Definition stripped_of (text t : string) : Prop :=
  ∃ l r,
    blank WHITESPACE l ∧ blank WHITESPACE r ∧
    String.list_ascii_of_string text = l ++ String.list_ascii_of_string t ++ r ∧
    trimmed WHITESPACE (String.list_ascii_of_string t).

(** The store hands back at most [n_results] metadata maps per query. *)
Definition honours_n_results {Store : Type} {services : Collaborators Store} : Prop :=
  ∀ s q n (d : PyDict) ms others,
    collection_query s q n = Ok (VDict d) →
    d !! "metadatas" = Some (VList (VList ms :: others)) →
    Z.of_nat (length ms) ≤ n.

(** ** Test doubles for the collaborators

    Small executable stand-ins, used to run the code above on concrete
    inputs. *)

Fixpoint digits_value (acc : Z) (s : string) : option Z :=
  match s with
  | EmptyString => Some acc
  | String c s' =>
      match Ascii.is_nat c with
      | Some d => digits_value (10 * acc + Z.of_nat d) s'
      | None => None
      end
  end.

(** [int] on a str of ASCII digits; [repr] is a placeholder. *)
Definition fake_builtins : Builtins := {|
  int_of_str s := match s with EmptyString => None | _ => digits_value 0 s end;
  repr _ := "<container>";
|}.

(** A UTF-8 [sys.stdout] with the error handler [strict]: it refuses the
    surrogates, U+D800 to U+DFFF, and nothing else. *)
Definition is_surrogate (c : string) : bool :=
  match c with
  | String b1 (String b2 _) => (nat_of_ascii b1 =? 237)%nat && (160 <=? nat_of_ascii b2)%nat
  | _ => false
  end.

Definition utf8_stdout : Console := {|
  stdout_encodes text := forallb (λ c, negb (is_surrogate c)) (utf8_chars text);
|}.

(** The one-character str of the lone surrogate U+D800. *)
Definition LONE_SURROGATE : string :=
  String.string_of_list_ascii (bytes [237; 160; 128]%nat).

(** The dict a Section Chunk is handed over as, its fields in the order of
    the data model. *)
Definition chunk_dict (c : SectionChunk) : PyDict :=
  mkDict ["document_name"; "page_number"; "section_title"; "full_path"; "content"]
    (chunk_fields c).

(** A dict with the items of a stored metadata map; the store builds the
    dicts of an answer. *)
Definition as_dict (m : gmap string PyVal) : PyDict :=
  mkDict (map_to_list m).*1 m.

(** A store entry: identifier, embedding, document text, metadata. *)
Definition FakeStore : Type := list (string * PyVal * string * gmap string PyVal).

Definition fake_chunks : list SectionChunk :=
  [ mkSectionChunk "guide.pdf" 1 "Intro" ["Guide"; "Intro"] "Plants need light.";
    mkSectionChunk "guide.pdf" 2 "Method" ["Guide"; "Method"] "We measured growth." ].

Definition fake_parse (pdf_path model_path encoder_path : string) : res PyVal :=
  if decide (basename pdf_path = "empty.pdf") then Ok (VList [])
  else if decide (basename pdf_path = "broken.pdf") then Raise (ServiceError "parser")
  else Ok (VList (VDict <$> (chunk_dict <$> fake_chunks))).

Definition fake_embed (model : string) (content : PyVal) (task_type : string) : res PyVal :=
  match content with
  | VList texts => Ok (VDict (py_dict [("embedding", VList ((λ _, VList [VInt 0]) <$> texts))]))
  | _ => Ok (VDict (py_dict [("embedding", VList [VInt 0])]))
  end.

Definition fake_add (s : FakeStore) (embeddings : PyVal) (documents : list string)
    (metadatas : list (gmap string PyVal)) (ids : list string) : res FakeStore :=
  match embeddings with
  | VList vectors =>
      if decide (length vectors = length ids ∧ length documents = length ids
                 ∧ length metadatas = length ids)
      then Ok (s ++ zip (zip (zip ids vectors) documents) metadatas)
      else Raise ValueError
  | _ => Raise ValueError
  end.

Definition fake_query (s : FakeStore) (query_embeddings : PyVal) (n_results : Z) : res PyVal :=
  let hits := take (Z.to_nat n_results) s in
  Ok (VDict (py_dict
        [("ids", VList [VList ((λ e, VStr e.1.1.1) <$> hits)]);
         ("documents", VList [VList ((λ e, VStr e.1.2) <$> hits)]);
         ("metadatas", VList [VList ((λ e, VDict (as_dict e.2)) <$> hits)]);
         ("distances", VList [VList ((λ _, VInt 0) <$> hits)])])).

Definition fake_generate (prompt : string) : res string :=
  Ok ("  1. Contradictions: none." +:+ nl +:+ " ").

Definition fake_collaborators : Collaborators FakeStore := {|
  parse_document_to_sections := fake_parse;
  embed_content := fake_embed;
  embed_content_async := fake_embed;
  collection_add := fake_add;
  collection_query := fake_query;
  generate_content := fake_generate;
  open_services := Ok ();
|}.

(** The same services with the generation model out of order. *)
Definition fake_generation_down : Collaborators FakeStore := {|
  parse_document_to_sections := fake_parse;
  embed_content := fake_embed;
  embed_content_async := fake_embed;
  collection_add := fake_add;
  collection_query := fake_query;
  generate_content _ := Raise (ServiceError "generation");
  open_services := Ok ();
|}.

(** The same services with the embedding client out of order. *)
Definition fake_embedding_down : Collaborators FakeStore := {|
  parse_document_to_sections := fake_parse;
  embed_content _ _ _ := Raise (ServiceError "embedding");
  embed_content_async _ _ _ := Raise (ServiceError "embedding");
  collection_add := fake_add;
  collection_query := fake_query;
  generate_content := fake_generate;
  open_services := Ok ();
|}.

(** The same services with the store refusing queries. *)
Definition fake_query_down : Collaborators FakeStore := {|
  parse_document_to_sections := fake_parse;
  embed_content := fake_embed;
  embed_content_async := fake_embed;
  collection_add := fake_add;
  collection_query _ _ _ := Raise (ServiceError "store");
  generate_content := fake_generate;
  open_services := Ok ();
|}.

Definition empty_world : World FakeStore := mkWorld [] [].

(** The two classifier artifacts of [run_indexing.py]. *)
Definition MODEL_PATH : string := "models/heading_classifier_model.joblib".
Definition ENCODER_PATH : string := "models/label_encoder.joblib".

(** The world after [guide.pdf] has been indexed. *)
Definition indexed_world : World FakeStore :=
  (process_and_index_pdf_async (builtins := fake_builtins) (services := fake_collaborators)
     "pdfs/guide.pdf" MODEL_PATH ENCODER_PATH empty_world).2.

(** The request body [{"selection": selection}]. *)
Definition selection_request (selection : PyVal) : PyVal :=
  VDict (py_dict [("selection", selection)]).

(** The status code of an answer, if the view function returned one. *)
Definition status_of (r : res Response) : option Z :=
  match r with
  | Ok response => Some (status response)
  | Raise _ => None
  end.

(** ** run_indexing.py *)

Definition PDF_DIRECTORY : string := "pdfs".

(** The file system as [main] asks for it: [os.path.exists],
    [os.path.isdir] and [os.listdir]. *)
Class FileSystem := {
  os_path_exists : string → bool;
  os_path_isdir : string → bool;
  os_listdir : string → res (list string);
}.

(** [str.lower()] on the ASCII letters.  Other code points are left as they
    are: none of them lowers to a character of [".pdf"], the one thing the
    lowered name is asked about. *)
Definition ascii_lower (c : ascii) : ascii :=
  let n := nat_of_ascii c in
  if (65 <=? n)%nat && (n <=? 90)%nat then ascii_of_nat (n + 32) else c.

Fixpoint py_lower (s : string) : string :=
  match s with
  | EmptyString => EmptyString
  | String c s' => String (ascii_lower c) (py_lower s')
  end.

(** [s.endswith(suffix)] *)
Definition py_endswith (s suffix : string) : bool :=
  String.prefix (String.rev suffix) (String.rev s).

(** The filter of the list comprehension: [f.lower().endswith(".pdf")]. *)
Definition is_pdf (f : string) : bool := py_endswith (py_lower f) ".pdf".

(** [os.path.join(a, b)] (POSIX), for two components. *)
Definition os_path_join (a b : string) : string :=
  if String.prefix "/" b then b
  else if bool_decide (a = EmptyString) || py_endswith a "/" then a +:+ b
  else a +:+ "/" +:+ b.

Inductive IndexingPipeline : Set := mkIndexingPipeline.

Section Main.
Context {Store : Type} {services : Collaborators Store} {fs : FileSystem}.

(** [IndexingPipeline.__init__] *)
Definition IndexingPipeline_init (google_api_key : PyVal) : res IndexingPipeline :=
  if negb (py_truthy google_api_key) then Raise ValueError
  else
    (_ ← open_services;
     Ok mkIndexingPipeline)%R.

(** How [main] ends before it awaits anything: one of its early returns, or
    the coroutines it has created, each by its three arguments. *)
Inductive MainOutcome :=
| MissingApiKey
| MissingModelFiles
| MissingPdfDirectory
| PipelineNotInitialized (e : exn)
| NoPdfFiles
| Gathered (tasks : list (string * string * string)).

(** [main], up to the call of [asyncio.gather] on the tasks. *)
Definition main (GOOGLE_API_KEY : PyVal) : res MainOutcome :=
  if negb (py_truthy GOOGLE_API_KEY) then Ok MissingApiKey
  else if negb (os_path_exists MODEL_PATH) || negb (os_path_exists ENCODER_PATH)
  then Ok MissingModelFiles
  else if negb (os_path_isdir PDF_DIRECTORY) then Ok MissingPdfDirectory
  else
    match IndexingPipeline_init GOOGLE_API_KEY with
    | Raise e => Ok (PipelineNotInitialized e)
    | Ok pipeline =>
        (entries ← os_listdir PDF_DIRECTORY;
         let pdf_files := filter (λ f : string, is_pdf f) entries in
         match pdf_files with
         | [] => Ok NoPdfFiles
         | _ =>
             Ok (Gathered
                   ((λ pdf_file,
                       (os_path_join PDF_DIRECTORY pdf_file, MODEL_PATH, ENCODER_PATH))
                      <$> pdf_files))
         end)%R
    end.
End Main.

(** ** More vocabulary for the statements *)

(** A string of decimal digits. *)
Fixpoint all_digits (s : string) : bool :=
  match s with
  | EmptyString => true
  | String c s' => match Ascii.is_nat c with Some _ => all_digits s' | None => false end
  end.

Definition is_dict (v : PyVal) : bool :=
  match v with
  | VDict _ => true
  | _ => false
  end.

Section Escapes.
Context {builtins : Builtins} {console : Console}.

(** The parsed bodies on which the view function lets an exception escape:
    a number or [true] (the membership test), a string or array in which
    ["selection"] occurs (the subscript by a str), an object whose
    ["selection"] cannot be sliced, or can be but standard output refuses
    the line that echoes its first 50 items. *)
Definition escapes (data : PyVal) : bool :=
  match data with
  | VNone => false
  | VBool b => b
  | VInt z => negb (z =? 0)
  | VStr s => is_substring "selection" s
  | VList l =>
      existsb (λ x, match x with VStr s => bool_decide (s = "selection") | _ => false end) l
  | VDict d =>
      match d !! "selection" with
      | None => false
      | Some (VStr s) =>
          negb (stdout_encodes
                  (received_line (VStr (String.concat EmptyString (take 50 (utf8_chars s))))))
      | Some (VList l) => negb (stdout_encodes (received_line (VList (take 50 l))))
      | Some _ => true
      end
  end.
End Escapes.

(** The calls a run of the pipeline may add to the log. *)
Definition indexing_calls (l : list Call) : Prop :=
  l = [] ∨
  (∃ content, l = [EmbedContentAsync EMBEDDING_MODEL content "RETRIEVAL_DOCUMENT"]) ∨
  (∃ content embeddings documents metadatas ids,
     l = [EmbedContentAsync EMBEDDING_MODEL content "RETRIEVAL_DOCUMENT";
          CollectionAdd embeddings documents metadatas ids] ∧
     length documents = length ids ∧ length metadatas = length ids).

Definition is_add (c : Call) : bool :=
  match c with
  | CollectionAdd _ _ _ _ => true
  | _ => false
  end.

(** A computation that leaves the store alone and makes at most [n] calls,
    none of them an [add]. *)
Definition read_only {Store A : Type} (n : nat) (m : M Store A) : Prop :=
  ∀ w, ∃ r l,
    m w = (r, mkWorld (store w) (calls w ++ l)) ∧
    existsb is_add l = false ∧ (length l ≤ n)%nat.

(** ** More test doubles *)

(** The services with a parser that returns [parsed] for every document. *)
Definition fake_parser_returns (parsed : PyVal) : Collaborators FakeStore := {|
  parse_document_to_sections _ _ _ := Ok parsed;
  embed_content := fake_embed;
  embed_content_async := fake_embed;
  collection_add := fake_add;
  collection_query := fake_query;
  generate_content := fake_generate;
  open_services := Ok ();
|}.

(** The services with a store that answers every query with [answer]. *)
Definition fake_query_returns (answer : PyVal) : Collaborators FakeStore := {|
  parse_document_to_sections := fake_parse;
  embed_content := fake_embed;
  embed_content_async := fake_embed;
  collection_add := fake_add;
  collection_query _ _ _ := Ok answer;
  generate_content := fake_generate;
  open_services := Ok ();
|}.

(** A file system with both classifier artifacts and a [pdfs] directory of
    the given entries. *)
Definition fake_fs (entries : list string) : FileSystem := {|
  os_path_exists _ := true;
  os_path_isdir _ := true;
  os_listdir _ := Ok entries;
|}.

Definition fake_entries : list string := ["guide.pdf"; "notes.txt"; "Report.PDF"].

(** * Properties *)

(** ** Dicts *)

Lemma dict_set_wf {V} key (value : V) (d : ordered_dict V) :
  dict_wf d → dict_wf (dict_set key value d).
Proof.
  intros [Hnodup Hdom].
  unfold dict_wf, dict_set, lookup, ordered_dict_lookup in *. cbn [dict_keys dict_items].
  case_decide as Hin.
  - split; [done |]. intros k. rewrite Hdom.
    destruct (decide (k = key)) as [-> | Hne].
    + rewrite lookup_insert_eq. split; [by eexists | intros _; by apply Hdom].
    + by rewrite lookup_insert_ne.
  - split.
    + apply NoDup_app. split_and!; [done | | apply NoDup_singleton].
      intros k Hk ->%list_elem_of_singleton. done.
    + intros k. rewrite elem_of_app, list_elem_of_singleton, Hdom.
      destruct (decide (k = key)) as [-> | Hne].
      * rewrite lookup_insert_eq. split; [by eexists | by right].
      * rewrite lookup_insert_ne by done. split; [by intros [? | ?] | by left].
Qed.

(** A dict literal is a dict. *)
Lemma py_dict_wf {V} (items : list (string * V)) : dict_wf (py_dict items).
Proof.
  unfold py_dict.
  assert (dict_wf (mkDict (V := V) [] ∅)) as Hempty.
  { split; [constructor |]. intros k. unfold lookup, ordered_dict_lookup. simpl.
    rewrite elem_of_nil, lookup_empty. split; [done | by intros [? ?]]. }
  revert Hempty. generalize (mkDict (V := V) [] ∅).
  induction items as [| item items IH]; intros d Hd; [done |].
  simpl. apply IH. by apply dict_set_wf.
Qed.

Lemma as_dict_wf (m : gmap string PyVal) : dict_wf (as_dict m).
Proof.
  split; [apply NoDup_fst_map_to_list |].
  intros k. unfold as_dict, lookup, ordered_dict_lookup. cbn [dict_keys dict_items].
  rewrite list_elem_of_fmap. split.
  - intros ([k' v] & -> & Hin). apply elem_of_map_to_list in Hin. by eexists.
  - intros [v Hv]. exists (k, v). split; [done |]. by apply elem_of_map_to_list.
Qed.

Lemma chunk_dict_wf (c : SectionChunk) : dict_wf (chunk_dict c).
Proof.
  split.
  - unfold chunk_dict. cbn [dict_keys]. apply (bool_decide_unpack _). by vm_compute.
  - intros k. unfold chunk_dict, lookup, ordered_dict_lookup.
    cbn [dict_keys dict_items]. split.
    + rewrite !elem_of_cons, elem_of_nil.
      intros [-> | [-> | [-> | [-> | [-> | []]]]]]; by eexists.
    + unfold chunk_fields.
      rewrite !lookup_insert_is_Some, lookup_empty, !elem_of_cons.
      intros [<- | [_ [<- | [_ [<- | [_ [<- | [_ [<- | [_ [? ?]]]]]]]]]]]; auto 10; done.
Qed.


(** One bind of the state-and-exception monad over a lifted result. *)
Ltac step := unfold M_bind at 1, lift at 1.

(** ** Results and joins *)


Lemma res_mapM_Forall2 {A B} (f : A → res B) l l' :
  Forall2 (λ x y, f x = Ok y) l l' → res_mapM f l = Ok l'.
Proof.
  induction 1 as [| x y l l' Hxy _ IH]; simpl; [done |].
  by rewrite Hxy, IH.
Qed.


(** ** [str.strip()] removes the whitespace at both ends *)

Lemma blank_nil ws : blank ws [].
Proof. exists []. split; [constructor | reflexivity]. Qed.

Lemma blank_app ws w l : w ∈ ws → blank ws l → blank ws (w ++ l).
Proof.
  intros Hw (parts & Hparts & ->). exists (w :: parts).
  split; [by constructor | reflexivity].
Qed.

Lemma blank_snoc ws w l : w ∈ ws → blank ws l → blank ws (l ++ w).
Proof.
  intros Hw (parts & Hparts & ->). exists (parts ++ [w]). split.
  - apply Forall_app. split; [done | by repeat constructor].
  - rewrite concat_app. simpl. by rewrite app_nil_r.
Qed.

Lemma blank_reverse ws l : blank (reverse <$> ws) l → blank ws (reverse l).
Proof.
  intros (parts & Hparts & ->).
  induction Hparts as [| w parts Hw _ IH]; simpl.
  - apply blank_nil.
  - rewrite reverse_app. apply list_elem_of_fmap in Hw as (w' & -> & Hw').
    rewrite reverse_involutive. by apply blank_snoc.
Qed.

Lemma drop_prefix_Some w s s' : drop_prefix w s = Some s' → s = w ++ s'.
Proof.
  unfold drop_prefix. case_decide as Hw; [| done].
  intros [= <-]. rewrite <- Hw at 1. by rewrite take_drop.
Qed.

Lemma drop_prefix_None w s : drop_prefix w s = None → ¬ w `prefix_of` s.
Proof.
  unfold drop_prefix. case_decide as Hw; [done |].
  intros _ [k ->]. apply Hw. apply take_app_length.
Qed.

Lemma drop_some_prefix_Some ws s s' :
  drop_some_prefix ws s = Some s' → ∃ w, w ∈ ws ∧ s = w ++ s'.
Proof.
  unfold drop_some_prefix. intros Hhead.
  apply head_Some_elem_of, list_elem_of_omap in Hhead as (w & Hw & Hdrop).
  exists w. split; [done |]. by apply drop_prefix_Some.
Qed.

Lemma drop_some_prefix_None ws s w :
  drop_some_prefix ws s = None → w ∈ ws → ¬ w `prefix_of` s.
Proof.
  unfold drop_some_prefix. rewrite head_None. intros Hnil Hw.
  apply drop_prefix_None.
  destruct (drop_prefix w s) as [s' |] eqn:Hdrop; [| done].
  assert (s' ∈ omap (λ w, drop_prefix w s) ws) as Hin
    by (apply list_elem_of_omap; eauto).
  rewrite Hnil in Hin. by apply elem_of_nil in Hin.
Qed.

Lemma lstrip_fuel_split ws fuel s :
  ∃ l, blank ws l ∧ s = l ++ lstrip_fuel ws fuel s.
Proof.
  revert s. induction fuel as [| fuel IH]; intros s; simpl.
  - exists []. split; [apply blank_nil | done].
  - destruct (drop_some_prefix ws s) as [s' |] eqn:Hdrop.
    + apply drop_some_prefix_Some in Hdrop as (w & Hw & ->).
      destruct (IH s') as (l & Hl & Heq).
      exists (w ++ l). split; [by apply blank_app |].
      rewrite <- app_assoc. by rewrite <- Heq.
    + exists []. split; [apply blank_nil | done].
Qed.

(** The fuel, the length of the string, is enough: every round removes at
    least one byte. *)
Lemma lstrip_fuel_trimmed ws fuel s w :
  Forall (λ w, w ≠ []) ws → (length s ≤ fuel)%nat → w ∈ ws →
  ¬ w `prefix_of` lstrip_fuel ws fuel s.
Proof.
  intros Hne Hfuel Hw. revert s Hfuel.
  induction fuel as [| fuel IH]; intros s Hfuel; simpl.
  - destruct s; [| simpl in Hfuel; lia].
    intros [k Hk]. symmetry in Hk. apply app_eq_nil in Hk as [-> _].
    rewrite Forall_forall in Hne. by apply (Hne []).
  - destruct (drop_some_prefix ws s) as [s' |] eqn:Hdrop.
    + apply IH. apply drop_some_prefix_Some in Hdrop as (w' & Hw' & ->).
      rewrite Forall_forall in Hne. specialize (Hne w' Hw').
      rewrite length_app in Hfuel. destruct w'; [done |]. simpl in Hfuel. lia.
    + by eapply drop_some_prefix_None.
Qed.

Lemma lstrip_split ws s : ∃ l, blank ws l ∧ s = l ++ lstrip ws s.
Proof. apply lstrip_fuel_split. Qed.

Lemma lstrip_trimmed ws s w :
  Forall (λ w, w ≠ []) ws → w ∈ ws → ¬ w `prefix_of` lstrip ws s.
Proof. intros. by apply lstrip_fuel_trimmed. Qed.

Lemma rstrip_split ws s : ∃ r, blank ws r ∧ s = rstrip ws s ++ r.
Proof.
  unfold rstrip.
  destruct (lstrip_split (reverse <$> ws) (reverse s)) as (l & Hl & Heq).
  exists (reverse l). split; [by apply blank_reverse |].
  rewrite <- reverse_app, <- Heq. by rewrite reverse_involutive.
Qed.

Lemma rstrip_trimmed ws s w :
  Forall (λ w, w ≠ []) ws → w ∈ ws → ¬ w `suffix_of` rstrip ws s.
Proof.
  intros Hne Hw Hsuf. unfold rstrip in Hsuf.
  apply suffix_prefix_reverse in Hsuf. rewrite reverse_involutive in Hsuf.
  revert Hsuf. apply lstrip_trimmed.
  - apply Forall_fmap. eapply Forall_impl; [exact Hne |].
    intros x Hx Hrev. apply Hx. apply (f_equal reverse) in Hrev.
    by rewrite reverse_involutive in Hrev.
  - by apply list_elem_of_fmap_2.
Qed.

Lemma WHITESPACE_nonempty : Forall (λ w, w ≠ []) WHITESPACE.
Proof. unfold WHITESPACE. repeat constructor; done. Qed.

Lemma py_strip_stripped text : stripped_of text (py_strip text).
Proof.
  unfold stripped_of, py_strip.
  rewrite String.list_ascii_of_string_of_list_ascii.
  set (s := String.list_ascii_of_string text).
  destruct (lstrip_split WHITESPACE s) as (l & Hl & Hs).
  destruct (rstrip_split WHITESPACE (lstrip WHITESPACE s)) as (r & Hr & Ht).
  exists l, r. split_and!; [done | done | by rewrite <- Ht |].
  intros w Hw. split.
  - intros [k Hk]. apply (lstrip_trimmed WHITESPACE s w WHITESPACE_nonempty Hw).
    exists (k ++ r). rewrite Ht at 1. rewrite Hk. by rewrite <- app_assoc.
  - by apply rstrip_trimmed; [apply WHITESPACE_nonempty |].
Qed.

(** ** Section Chunks and the dicts that carry them *)



#[global] Instance chunk_id_inj base : Inj (=) (=) (chunk_id base).
Proof.
  intros i j Heq. unfold chunk_id in Heq.
  apply String.app_inj, String.app_inj in Heq. by apply pretty_nat_inj in Heq.
Qed.

(** ** The indexing pipeline *)

Section IndexingProperties.
Context {builtins : Builtins} {Store : Type} {services : Collaborators Store}.













(** C10: the loop that builds the metadata runs only after the descriptive
    text of every chunk has been built, so a chunk that reaches it is a dict
    whose [full_path] has been joined already.  For such a chunk, if
    [page_number], when present, is convertible by [int], the metadata map is
    built, whatever fields are missing: [document_name], [section_title] and
    [original_content] default to the empty string, [full_path] to the join
    of the empty sequence, the empty string, and [page_number] is the
    integer [int] gives, 0 when the field is absent. *)
Theorem metadata_total_over_missing_fields (chunk : PyVal) (text : string) :
  _prepare_chunk_for_embedding chunk = Ok text →
  (∀ (d : PyDict) v,
     chunk = VDict d → d !! "page_number" = Some v → ∃ z, py_int v = Ok z) →
  ∃ (d : PyDict) page path,
    chunk = VDict d ∧
    chunk_metadata chunk
    = Ok (<["document_name" := default (VStr EmptyString) (d !! "document_name")]>
         (<["page_number" := VInt page]>
         (<["section_title" := default (VStr EmptyString) (d !! "section_title")]>
         (<["full_path" := VStr path]>
         (<["original_content" := default (VStr EmptyString) (d !! "content")]> ∅))))) ∧
    py_int (default (VInt 0) (d !! "page_number")) = Ok page ∧
    py_join " > " (default (VList []) (d !! "full_path")) = Ok path ∧
    (d !! "page_number" = None → page = 0) ∧
    (d !! "full_path" = None → path = EmptyString).
Proof.
  intros Htext Hpage.
  destruct chunk as [| | | | | d]; try done.
  unfold _prepare_chunk_for_embedding in Htext. cbn [py_get res_bind] in Htext.
  destruct (py_join " > " (default (VList []) (d !! "full_path")))
    as [path |] eqn:Hjoin; [| done].
  assert (∃ page, py_int (default (VInt 0) (d !! "page_number")) = Ok page
                  ∧ (d !! "page_number" = None → page = 0)) as (page & Hint & Hpage0).
  { destruct (d !! "page_number") as [v |] eqn:Hv; simpl.
    - destruct (Hpage d v eq_refl Hv) as [z Hz]. by exists z.
    - by exists 0. }
  exists d, page, path. split_and!; try done.
  - unfold chunk_metadata. cbn [py_get res_bind]. by rewrite Hint, Hjoin.
  - intros Hnone. rewrite Hnone in Hjoin. by injection Hjoin as <-.
Qed.
End IndexingProperties.

(** ** The retrieval handler *)

Section HandlerProperties.
Context {builtins : Builtins} {console : Console}
  {Store : Type} {services : Collaborators Store}.

Lemma retrieve_run user_selection top_k w result query_embedding (d : PyDict) ms others :
  embed_content EMBEDDING_MODEL user_selection "RETRIEVAL_QUERY" = Ok result →
  py_getitem_str result "embedding" = Ok query_embedding →
  collection_query (store w) (VList [query_embedding]) top_k = Ok (VDict d) →
  d !! "metadatas" = Some (VList (VList ms :: others)) →
  retrieve_relevant_sections user_selection top_k w
  = (Ok (VList ms),
     mkWorld (store w)
       (calls w ++ [EmbedContent EMBEDDING_MODEL user_selection "RETRIEVAL_QUERY";
                    CollectionQuery (VList [query_embedding]) top_k])).
Proof.
  intros Hembed Hitem Hquery Hmeta. unfold retrieve_relevant_sections.
  unfold M_bind at 1, call_embed_content at 1. rewrite Hembed.
  step. rewrite Hitem.
  unfold M_bind at 1, call_collection_query at 1. cbn [log store]. rewrite Hquery.
  step. cbn [py_get]. rewrite Hmeta. cbn [default].
  step. cbn [py_getitem_nat lookup list_lookup].
  step. cbn [py_len]. unfold M_ret, log. cbn [store calls].
  by rewrite <- app_assoc.
Qed.

(** What a retrieval that returns leaves in the world: the two calls, the
    store untouched. *)
Lemma retrieve_Ok_calls user_selection top_k w v w1 :
  retrieve_relevant_sections user_selection top_k w = (Ok v, w1) →
  ∃ query_embedding,
    w1 = mkWorld (store w)
           (calls w ++ [EmbedContent EMBEDDING_MODEL user_selection "RETRIEVAL_QUERY";
                        CollectionQuery (VList [query_embedding]) top_k]).
Proof.
  unfold retrieve_relevant_sections.
  unfold M_bind at 1, call_embed_content at 1.
  destruct (embed_content _ _ _) as [result |]; [| done].
  step. destruct (py_getitem_str result "embedding") as [query_embedding |]; [| done].
  unfold M_bind at 1, call_collection_query at 1. cbn [log store].
  destruct (collection_query _ _ _) as [query_results |]; [| done].
  step. destruct (py_get query_results _ _) as [metadatas |]; [| done].
  step. destruct (py_getitem_nat metadatas 0) as [retrieved |]; [| done].
  step. destruct (py_len retrieved); [| done].
  unfold M_ret, log. cbn [store calls]. intros [= _ <-].
  exists query_embedding. by rewrite <- app_assoc.
Qed.

Lemma retrieve_Raise_embed user_selection top_k w e :
  embed_content EMBEDDING_MODEL user_selection "RETRIEVAL_QUERY" = Raise e →
  retrieve_relevant_sections user_selection top_k w
  = (Raise e, log (EmbedContent EMBEDDING_MODEL user_selection "RETRIEVAL_QUERY") w).
Proof.
  intros Hembed. unfold retrieve_relevant_sections.
  unfold M_bind at 1, call_embed_content at 1. by rewrite Hembed.
Qed.

Lemma retrieve_Raise_query user_selection top_k w result query_embedding e :
  embed_content EMBEDDING_MODEL user_selection "RETRIEVAL_QUERY" = Ok result →
  py_getitem_str result "embedding" = Ok query_embedding →
  collection_query (store w) (VList [query_embedding]) top_k = Raise e →
  retrieve_relevant_sections user_selection top_k w
  = (Raise e,
     log (CollectionQuery (VList [query_embedding]) top_k)
       (log (EmbedContent EMBEDDING_MODEL user_selection "RETRIEVAL_QUERY") w)).
Proof.
  intros Hembed Hitem Hquery. unfold retrieve_relevant_sections.
  unfold M_bind at 1, call_embed_content at 1. rewrite Hembed.
  step. rewrite Hitem.
  unfold M_bind at 1, call_collection_query at 1. cbn [log store]. by rewrite Hquery.
Qed.

Lemma format_context_item_dict (d : PyDict) :
  format_context_item (VDict d) = Ok (context_item_text d).
Proof. reflexivity. Qed.

Lemma build_prompt_dicts user_selection (ms : list PyDict) :
  build_prompt user_selection (VList (VDict <$> ms))
  = Ok (rendered_prompt user_selection ms).
Proof.
  unfold build_prompt. cbn [py_iter res_bind].
  rewrite (res_mapM_Forall2 _ _ (context_item_text <$> ms)); [done |].
  apply Forall2_fmap, Forall_Forall2_diag, Forall_forall.
  intros d _. apply format_context_item_dict.
Qed.

Lemma generate_insights_no_context user_selection w :
  generate_insights user_selection (VList []) w = (Ok NO_CONTEXT_MESSAGE, w).
Proof. reflexivity. Qed.

Lemma generate_insights_run user_selection sections prompt w :
  py_truthy sections = true →
  build_prompt user_selection sections = Ok prompt →
  generate_insights user_selection sections w
  = (Ok match generate_content prompt with
        | Ok text => py_strip text
        | Raise _ => API_ERROR_MESSAGE
        end,
     log (GenerateContent prompt) w).
Proof.
  intros Htruthy Hprompt. unfold generate_insights. rewrite Htruthy. cbn [negb].
  step. rewrite Hprompt.
  unfold try_except, M_bind, call_generate_content, M_ret.
  by destruct (generate_content prompt).
Qed.

Lemma get_insights_for_selection_Raise user_selection w e w1 :
  retrieve_relevant_sections user_selection DEFAULT_TOP_K w = (Raise e, w1) →
  get_insights_for_selection user_selection w = (Raise e, w1).
Proof.
  intros Hretrieve. unfold get_insights_for_selection, M_bind at 1.
  by rewrite Hretrieve.
Qed.

(** C2: whenever the retrieval step returns its list of metadata maps,
    [get_insights_for_selection] returns a dict with both keys,
    ["retrieved_sections"] holding that list and ["generated_insights"] a
    string; when the list is empty the string is the fixed no-context
    message and the world is the one retrieval left: the generation client
    has not been called. *)
Theorem get_insights_for_selection_has_both_keys
    (user_selection : PyVal) (ms : list PyDict) (w w1 : World Store) :
  retrieve_relevant_sections user_selection DEFAULT_TOP_K w
    = (Ok (VList (VDict <$> ms)), w1) →
  ∃ response generated w2,
    get_insights_for_selection user_selection w = (Ok (VDict response), w2) ∧
    response !! "retrieved_sections" = Some (VList (VDict <$> ms)) ∧
    response !! "generated_insights" = Some (VStr generated) ∧
    (ms = [] →
       generated = NO_CONTEXT_MESSAGE ∧ w2 = w1 ∧
       ∀ prompt, GenerateContent prompt ∈ calls w2 → GenerateContent prompt ∈ calls w).
Proof.
  intros Hretrieve.
  destruct (retrieve_Ok_calls _ _ _ _ _ Hretrieve) as [query_embedding Hw1].
  unfold get_insights_for_selection. unfold M_bind at 1. rewrite Hretrieve.
  destruct ms as [| m ms].
  - unfold M_bind at 1. rewrite generate_insights_no_context. unfold M_ret.
    eexists _, _, _. split_and!; [reflexivity | done | done |].
    intros _. split_and!; [done | done |].
    intros prompt. rewrite Hw1. cbn [calls].
    rewrite elem_of_app, !elem_of_cons, elem_of_nil.
    intros [Hin | [Heq | [Heq | []]]]; [done | discriminate..].
  - unfold M_bind at 1.
    rewrite (generate_insights_run _ _ (rendered_prompt user_selection (m :: ms)));
      [| done | apply build_prompt_dicts]. unfold M_ret.
    eexists _, _, _. split_and!; [reflexivity | done | done | done].
Qed.

(** C3: for a non-empty list of retrieved metadata maps, [generate_insights]
    always returns a string and calls the generation client once, with the
    rendered prompt: the generated text stripped of the whitespace at both
    ends when the client answers, the fixed error message when it raises.
    No exception of the client leaves the function. *)
Theorem generate_insights_absorbs_generation_failure
    (user_selection : PyVal) (ms : list PyDict) (w : World Store) :
  ms ≠ [] →
  let prompt := rendered_prompt user_selection ms in
  generate_insights user_selection (VList (VDict <$> ms)) w
  = (Ok match generate_content prompt with
        | Ok text => py_strip text
        | Raise _ => API_ERROR_MESSAGE
        end,
     log (GenerateContent prompt) w) ∧
  ∀ text, generate_content prompt = Ok text → stripped_of text (py_strip text).
Proof.
  intros Hne prompt. split.
  - apply generate_insights_run; [by destruct ms | apply build_prompt_dicts].
  - intros text _. apply py_strip_stripped.
Qed.

(** C6: [retrieve_relevant_sections] embeds the selection with task type
    RETRIEVAL_QUERY, queries the store once with [n_results = top_k], and
    returns the first list under ["metadatas"] of the answer, as it is and in
    its order; nothing else of the answer reaches the result.  The list has
    at most [top_k] items when the store honours [n_results].  The default
    of [top_k] is 5. *)
Theorem retrieve_returns_first_metadatas
    (user_selection : PyVal) (top_k : Z) (w : World Store)
    (result query_embedding : PyVal) (d : PyDict)
    (ms others : list PyVal) :
  embed_content EMBEDDING_MODEL user_selection "RETRIEVAL_QUERY" = Ok result →
  py_getitem_str result "embedding" = Ok query_embedding →
  collection_query (store w) (VList [query_embedding]) top_k = Ok (VDict d) →
  d !! "metadatas" = Some (VList (VList ms :: others)) →
  retrieve_relevant_sections user_selection top_k w
  = (Ok (VList ms),
     mkWorld (store w)
       (calls w ++ [EmbedContent EMBEDDING_MODEL user_selection "RETRIEVAL_QUERY";
                    CollectionQuery (VList [query_embedding]) top_k])) ∧
  (honours_n_results → Z.of_nat (length ms) ≤ top_k) ∧
  DEFAULT_TOP_K = 5.
Proof.
  intros Hembed Hitem Hquery Hmeta. split_and!.
  - by eapply retrieve_run.
  - intros Hstore. by eapply Hstore.
  - reflexivity.
Qed.

(** ** The HTTP endpoint *)

Lemma py_truthy_dict_lookup (d : PyDict) k v :
  d !! k = Some v → py_truthy (VDict d) = true.
Proof.
  intros Hk. cbn [py_truthy].
  destruct (map_to_list (dict_items d)) eqn:Hlist; [| done].
  apply map_to_list_empty_iff in Hlist.
  unfold lookup, ordered_dict_lookup in Hk. rewrite Hlist in Hk.
  by rewrite lookup_empty in Hk.
Qed.

Lemma lacks_selection_dict (d : PyDict) :
  lacks_selection (VDict d)
  = Ok (match d !! "selection" with Some _ => false | None => true end).
Proof.
  unfold lacks_selection. destruct (d !! "selection") as [v |] eqn:Hsel.
  - rewrite (py_truthy_dict_lookup _ _ _ Hsel). cbn [negb py_contains_str res_bind].
    rewrite Hsel. by rewrite bool_decide_eq_true_2.
  - destruct (py_truthy (VDict d)); cbn [negb py_contains_str res_bind]; [| done].
    rewrite Hsel. by rewrite bool_decide_eq_false_2; [| apply is_Some_None].
Qed.

Lemma lacks_selection_true data :
  py_truthy data = false ∨ py_contains_str "selection" data = Ok false →
  lacks_selection data = Ok true.
Proof.
  intros Hdata. unfold lacks_selection.
  destruct (py_truthy data); cbn [negb]; [| done].
  destruct Hdata as [Hfalsy | ->]; done.
Qed.

Lemma get_insights_missing h data w :
  lacks_selection data = Ok true →
  get_insights (Some h) (Ok data) w
  = (Ok (mkResponse (error_body MISSING_SELECTION_MESSAGE) 400), w).
Proof.
  intros Hlacks. unfold get_insights. step. step. by rewrite Hlacks.
Qed.

(** The view function once the selection has been echoed. *)
Lemma get_insights_sliceable h (d : PyDict) selection shown w :
  d !! "selection" = Some selection →
  py_slice_to selection 50 = Ok shown →
  stdout_encodes (received_line shown) = true →
  get_insights (Some h) (Ok (VDict d)) w
  = match get_insights_for_selection selection w with
    | (Ok results, w') => (Ok (mkResponse results 200), w')
    | (Raise _, w') => (Ok (mkResponse (error_body INTERNAL_ERROR_MESSAGE) 500), w')
    end.
Proof.
  intros Hsel Hslice Hprint. unfold get_insights. step. step.
  rewrite lacks_selection_dict, Hsel.
  step. cbn [py_getitem_str]. rewrite Hsel.
  step. rewrite Hslice.
  step. unfold py_print. rewrite Hprint.
  unfold try_except, M_bind, M_ret.
  by destruct (get_insights_for_selection selection w) as [[results | e] w'].
Qed.

(** The view function when standard output refuses the echo. *)
Lemma get_insights_unprintable h (d : PyDict) selection shown w :
  d !! "selection" = Some selection →
  py_slice_to selection 50 = Ok shown →
  stdout_encodes (received_line shown) = false →
  get_insights (Some h) (Ok (VDict d)) w = (Raise UnicodeEncodeError, w).
Proof.
  intros Hsel Hslice Hprint. unfold get_insights. step. step.
  rewrite lacks_selection_dict, Hsel.
  step. cbn [py_getitem_str]. rewrite Hsel.
  step. rewrite Hslice.
  step. unfold py_print. by rewrite Hprint.
Qed.

Lemma startup_failed GOOGLE_API_KEY e :
  RetrievalHandler_init GOOGLE_API_KEY = Raise e → startup GOOGLE_API_KEY = None.
Proof. intros Hinit. unfold startup. by rewrite Hinit. Qed.

(** Without an API key the handler is not constructed. *)
Lemma startup_without_key : startup VNone = None.
Proof. reflexivity. Qed.

(** C4, as amended: when the handler failed to construct at startup the
    endpoint answers 500 whatever the body, parsed or not; with a handler,
    a body that is empty, or in which ["selection"] does not occur, is
    answered 400 with an error that names the missing 'selection' key; and
    a JSON object whose ["selection"] can be sliced (a string or an array)
    and echoed on standard output is answered with the handler's response
    and status 200, or with the generic 500 error when the handler raises.
    When standard output refuses the echo, [UnicodeEncodeError] leaves the
    view function before the handler is called. *)
Theorem get_insights_endpoint_contract
    (h : RetrievalHandler) (GOOGLE_API_KEY : PyVal) (request_json : res PyVal)
    (data : PyVal) (d : PyDict) (selection shown : PyVal) (w : World Store) :
  ((∃ e, RetrievalHandler_init GOOGLE_API_KEY = Raise e) →
   get_insights (startup GOOGLE_API_KEY) request_json w
     = (Ok (mkResponse (error_body NOT_INITIALIZED_MESSAGE) 500), w)) ∧
  (py_truthy data = false ∨ py_contains_str "selection" data = Ok false →
   get_insights (Some h) (Ok data) w
     = (Ok (mkResponse (error_body MISSING_SELECTION_MESSAGE) 400), w)) ∧
  (d !! "selection" = Some selection →
   py_slice_to selection 50 = Ok shown →
   get_insights (Some h) (Ok (VDict d)) w
     = if stdout_encodes (received_line shown)
       then
         match get_insights_for_selection selection w with
         | (Ok results, w') => (Ok (mkResponse results 200), w')
         | (Raise _, w') =>
             (Ok (mkResponse (error_body INTERNAL_ERROR_MESSAGE) 500), w')
         end
       else (Raise UnicodeEncodeError, w)) ∧
  (∀ s : string, ∃ shown', py_slice_to (VStr s) 50 = Ok (VStr shown')) ∧
  (∀ l : list PyVal, py_slice_to (VList l) 50 = Ok (VList (take 50 l))) ∧
  is_substring "'selection' key" MISSING_SELECTION_MESSAGE = true.
Proof.
  split_and!.
  - intros [e Hinit]. by rewrite (startup_failed _ _ Hinit).
  - intros Hdata. by apply get_insights_missing, lacks_selection_true.
  - intros Hsel Hslice.
    destruct (stdout_encodes (received_line shown)) eqn:Hprint.
    + by apply (get_insights_sliceable _ _ _ shown).
    + by apply (get_insights_unprintable _ _ selection shown).
  - intros s. by eexists.
  - done.
  - reflexivity.
Qed.

(** C9: for a request whose selection has been echoed (the handler is
    called only then), an exception of the query-embedding call or of the
    store query leaves [get_insights_for_selection] as it was raised, and
    the endpoint answers it with the generic 500 error; an exception of the
    generation client does not: the handler returns its dict, with the fixed
    error message under ["generated_insights"], and the endpoint answers
    200. *)
Theorem retrieval_failure_propagates
    (h : RetrievalHandler) (d : PyDict) (s : string) (shown : PyVal)
    (w : World Store) :
  d !! "selection" = Some (VStr s) →
  py_slice_to (VStr s) 50 = Ok shown →
  stdout_encodes (received_line shown) = true →
  (∀ e,
     embed_content EMBEDDING_MODEL (VStr s) "RETRIEVAL_QUERY" = Raise e ∨
     (∃ result query_embedding,
        embed_content EMBEDDING_MODEL (VStr s) "RETRIEVAL_QUERY" = Ok result ∧
        py_getitem_str result "embedding" = Ok query_embedding ∧
        collection_query (store w) (VList [query_embedding]) DEFAULT_TOP_K = Raise e) →
     ∃ w',
       get_insights_for_selection (VStr s) w = (Raise e, w') ∧
       get_insights (Some h) (Ok (VDict d)) w
         = (Ok (mkResponse (error_body INTERNAL_ERROR_MESSAGE) 500), w')) ∧
  (∀ e ms w1,
     retrieve_relevant_sections (VStr s) DEFAULT_TOP_K w
       = (Ok (VList (VDict <$> ms)), w1) →
     ms ≠ [] →
     generate_content (rendered_prompt (VStr s) ms) = Raise e →
     ∃ response w',
       get_insights_for_selection (VStr s) w = (Ok (VDict response), w') ∧
       response !! "generated_insights" = Some (VStr API_ERROR_MESSAGE) ∧
       get_insights (Some h) (Ok (VDict d)) w
         = (Ok (mkResponse (VDict response) 200), w')).
Proof.
  intros Hsel Hslice Hprint. split.
  - intros e Hfail.
    assert (∃ w', retrieve_relevant_sections (VStr s) DEFAULT_TOP_K w = (Raise e, w'))
      as [w' Hretrieve].
    { destruct Hfail as [Hembed | (result & query_embedding & Hembed & Hitem & Hquery)].
      - eexists. by apply retrieve_Raise_embed.
      - eexists. by eapply retrieve_Raise_query. }
    exists w'. apply get_insights_for_selection_Raise in Hretrieve.
    split; [done |].
    by rewrite (get_insights_sliceable _ _ _ _ _ Hsel Hslice Hprint), Hretrieve.
  - intros e ms w1 Hretrieve Hne Hgen.
    assert (get_insights_for_selection (VStr s) w
            = (Ok (VDict (py_dict [("retrieved_sections", VList (VDict <$> ms));
                                   ("generated_insights", VStr API_ERROR_MESSAGE)])),
               log (GenerateContent (rendered_prompt (VStr s) ms)) w1)) as Hrun.
    { unfold get_insights_for_selection, M_bind at 1. rewrite Hretrieve.
      unfold M_bind at 1.
      rewrite (generate_insights_run _ _ (rendered_prompt (VStr s) ms));
        [| by destruct ms | apply build_prompt_dicts].
      by rewrite Hgen. }
    eexists _, _. split_and!; [exact Hrun | done |].
    by rewrite (get_insights_sliceable _ _ _ _ _ Hsel Hslice Hprint), Hrun.
Qed.
End HandlerProperties.

(** ** The properties at work on the test doubles *)




Lemma metadata_total_over_missing_fields_witness :
  _prepare_chunk_for_embedding (builtins := fake_builtins)
    (VDict (py_dict [("page_number", VStr "12")]))
  = Ok ("Section Path: " +:+ nl +:+ "Content: ") ∧
  ∃ page path,
    chunk_metadata (builtins := fake_builtins)
      (VDict (py_dict [("page_number", VStr "12")]))
    = Ok (<["document_name" := VStr EmptyString]>
         (<["page_number" := VInt page]>
         (<["section_title" := VStr EmptyString]>
         (<["full_path" := VStr path]>
         (<["original_content" := VStr EmptyString]> ∅))))) ∧
    page = 12 ∧ path = EmptyString.
Proof.
  split; [reflexivity |].
  destruct (metadata_total_over_missing_fields (builtins := fake_builtins)
              (VDict (py_dict [("page_number", VStr "12")]))
              ("Section Path: " +:+ nl +:+ "Content: "))
    as (d & page & path & Hd & Hmeta & Hint & Hjoin & _ & _).
  - reflexivity.
  - intros d v [= <-] Hv. exists 12. vm_compute in Hv. by injection Hv as <-.
  - injection Hd as <-. exists page, path. split; [exact Hmeta |].
    vm_compute in Hint, Hjoin. split; congruence.
Defined.

Lemma get_insights_for_selection_has_both_keys_witness :
  ∃ response w2,
    get_insights_for_selection (builtins := fake_builtins) (services := fake_collaborators)
      (VStr "photosynthesis requires light") empty_world
    = (Ok (VDict response), w2) ∧
    response !! "retrieved_sections" = Some (VList []) ∧
    response !! "generated_insights" = Some (VStr NO_CONTEXT_MESSAGE) ∧
    calls w2
    = [EmbedContent EMBEDDING_MODEL (VStr "photosynthesis requires light") "RETRIEVAL_QUERY";
       CollectionQuery (VList [VList [VInt 0]]) 5].
Proof.
  destruct (get_insights_for_selection_has_both_keys
              (builtins := fake_builtins) (services := fake_collaborators)
              (VStr "photosynthesis requires light") [] empty_world
              (mkWorld []
                 [EmbedContent EMBEDDING_MODEL (VStr "photosynthesis requires light")
                    "RETRIEVAL_QUERY";
                  CollectionQuery (VList [VList [VInt 0]]) 5]))
    as (response & generated & w2 & Hrun & Hsections & Hgenerated & Hempty);
    [reflexivity |].
  destruct (Hempty eq_refl) as (-> & -> & _).
  exists response. eexists. split_and!; [exact Hrun | exact Hsections | exact Hgenerated | reflexivity].
Defined.

Lemma generate_insights_absorbs_generation_failure_witness :
  (generate_insights (builtins := fake_builtins) (services := fake_generation_down)
     (VStr "light") (VList (VDict <$> (as_dict <$> (indexed_metadata <$> fake_chunks))))
     empty_world).1
  = Ok API_ERROR_MESSAGE ∧
  (generate_insights (builtins := fake_builtins) (services := fake_collaborators)
     (VStr "light") (VList (VDict <$> (as_dict <$> (indexed_metadata <$> fake_chunks))))
     empty_world).1
  = Ok "1. Contradictions: none.".
Proof.
  split.
  - destruct (generate_insights_absorbs_generation_failure
                (builtins := fake_builtins) (services := fake_generation_down)
                (VStr "light") (as_dict <$> (indexed_metadata <$> fake_chunks)) empty_world)
      as [Hrun _]; [done |].
    by rewrite Hrun.
  - destruct (generate_insights_absorbs_generation_failure
                (builtins := fake_builtins) (services := fake_collaborators)
                (VStr "light") (as_dict <$> (indexed_metadata <$> fake_chunks)) empty_world)
      as [Hrun _]; [done |].
    by rewrite Hrun.
Defined.

Lemma retrieve_returns_first_metadatas_witness :
  (retrieve_relevant_sections (services := fake_collaborators)
     (VStr "photosynthesis requires light") 1 indexed_world).1
  = Ok (VList [VDict (as_dict (indexed_metadata
                                 (mkSectionChunk "guide.pdf" 1 "Intro" ["Guide"; "Intro"]
                                    "Plants need light.")))]).
Proof.
  edestruct (retrieve_returns_first_metadatas (services := fake_collaborators)
               (VStr "photosynthesis requires light") 1 indexed_world)
    as (Hrun & _ & _); [reflexivity | reflexivity | reflexivity | reflexivity |].
  by rewrite Hrun.
Defined.

Lemma get_insights_endpoint_contract_witness :
  get_insights (builtins := fake_builtins) (console := utf8_stdout)
    (services := fake_collaborators)
    (startup (services := fake_collaborators) VNone) (Raise ValueError) indexed_world
  = (Ok (mkResponse (error_body NOT_INITIALIZED_MESSAGE) 500), indexed_world) ∧
  get_insights (builtins := fake_builtins) (console := utf8_stdout)
    (services := fake_collaborators)
    (Some mkRetrievalHandler) (Ok (VDict (py_dict []))) indexed_world
  = (Ok (mkResponse (error_body MISSING_SELECTION_MESSAGE) 400), indexed_world) ∧
  status_of (get_insights (builtins := fake_builtins) (console := utf8_stdout)
               (services := fake_collaborators)
               (Some mkRetrievalHandler)
               (Ok (selection_request (VStr "photosynthesis requires light")))
               indexed_world).1
  = Some 200 ∧
  get_insights (builtins := fake_builtins) (console := utf8_stdout)
    (services := fake_collaborators)
    (Some mkRetrievalHandler) (Ok (selection_request (VStr LONE_SURROGATE))) indexed_world
  = (Raise UnicodeEncodeError, indexed_world).
Proof.
  destruct (get_insights_endpoint_contract
              (builtins := fake_builtins) (console := utf8_stdout)
              (services := fake_collaborators)
              mkRetrievalHandler VNone (Raise ValueError) (VDict (py_dict []))
              (py_dict [("selection", VStr "photosynthesis requires light")])
              (VStr "photosynthesis requires light")
              (VStr "photosynthesis requires light") indexed_world)
    as (Hdown & Hmissing & Hselected & _).
  destruct (get_insights_endpoint_contract
              (builtins := fake_builtins) (console := utf8_stdout)
              (services := fake_collaborators)
              mkRetrievalHandler VNone (Raise ValueError) VNone
              (py_dict [("selection", VStr LONE_SURROGATE)])
              (VStr LONE_SURROGATE) (VStr LONE_SURROGATE) indexed_world)
    as (_ & _ & Hrefused & _).
  split_and!.
  - apply Hdown. by exists ValueError.
  - apply Hmissing. by left.
  - unfold selection_request. rewrite Hselected; [| reflexivity..]. reflexivity.
  - unfold selection_request. rewrite Hrefused; [| reflexivity..]. reflexivity.
Defined.

(** C4, the claim as stated fails: with a handler in place and a body that
    has the ["selection"] key, an integer selection makes the view function
    raise [TypeError] (the slice taken for the log line) before the handler
    is called, although the handler would have answered. *)
Lemma get_insights_raises_on_integer_selection :
  get_insights (builtins := fake_builtins) (console := utf8_stdout)
    (services := fake_collaborators)
    (Some mkRetrievalHandler) (Ok (selection_request (VInt 5))) empty_world
  = (Raise TypeError, empty_world) ∧
  ∃ results w',
    get_insights_for_selection (builtins := fake_builtins) (services := fake_collaborators)
      (VInt 5) empty_world
    = (Ok results, w').
Proof. split; [reflexivity | by eexists _, _]. Qed.

Lemma retrieval_failure_propagates_witness :
  get_insights (builtins := fake_builtins) (console := utf8_stdout)
    (services := fake_embedding_down)
    (Some mkRetrievalHandler) (Ok (selection_request (VStr "light"))) indexed_world
  = (Ok (mkResponse (error_body INTERNAL_ERROR_MESSAGE) 500),
     log (EmbedContent EMBEDDING_MODEL (VStr "light") "RETRIEVAL_QUERY") indexed_world) ∧
  get_insights (builtins := fake_builtins) (console := utf8_stdout)
    (services := fake_query_down)
    (Some mkRetrievalHandler) (Ok (selection_request (VStr "light"))) indexed_world
  = (Ok (mkResponse (error_body INTERNAL_ERROR_MESSAGE) 500),
     log (CollectionQuery (VList [VList [VInt 0]]) 5)
       (log (EmbedContent EMBEDDING_MODEL (VStr "light") "RETRIEVAL_QUERY") indexed_world)) ∧
  ∃ response w',
    get_insights (builtins := fake_builtins) (console := utf8_stdout)
      (services := fake_generation_down)
      (Some mkRetrievalHandler) (Ok (selection_request (VStr "light"))) indexed_world
    = (Ok (mkResponse (VDict response) 200), w') ∧
    response !! "generated_insights" = Some (VStr API_ERROR_MESSAGE).
Proof.
  split_and!.
  - destruct (retrieval_failure_propagates
                (builtins := fake_builtins) (console := utf8_stdout)
                (services := fake_embedding_down)
                mkRetrievalHandler (py_dict [("selection", VStr "light")]) "light"
                (VStr "light") indexed_world)
      as [Hfail _]; [reflexivity | reflexivity | reflexivity |].
    destruct (Hfail (ServiceError "embedding")) as (w' & Hhandler & Hendpoint);
      [by left |].
    injection Hhandler as <-. exact Hendpoint.
  - destruct (retrieval_failure_propagates
                (builtins := fake_builtins) (console := utf8_stdout)
                (services := fake_query_down)
                mkRetrievalHandler (py_dict [("selection", VStr "light")]) "light"
                (VStr "light") indexed_world)
      as [Hfail _]; [reflexivity | reflexivity | reflexivity |].
    destruct (Hfail (ServiceError "store")) as (w' & Hhandler & Hendpoint).
    { right. by eexists _, _. }
    injection Hhandler as <-. exact Hendpoint.
  - destruct (retrieval_failure_propagates
                (builtins := fake_builtins) (console := utf8_stdout)
                (services := fake_generation_down)
                mkRetrievalHandler (py_dict [("selection", VStr "light")]) "light"
                (VStr "light") indexed_world)
      as [_ Habsorbed]; [reflexivity | reflexivity | reflexivity |].
    edestruct (Habsorbed (ServiceError "generation")
                 (as_dict <$> (indexed_metadata <$> fake_chunks)))
      as (response & w' & _ & Hgenerated & Hendpoint).
    { eapply (retrieve_run (services := fake_generation_down)); reflexivity. }
    { discriminate. }
    { reflexivity. }
    exists response, w'. split; [exact Hendpoint | exact Hgenerated].
Defined.

(** * Further properties *)

(** ** Sequencing over lists *)

Lemma res_mapM_length {A B} (f : A → res B) l l' :
  res_mapM f l = Ok l' → length l' = length l.
Proof.
  revert l'. induction l as [| x l IH]; intros l'; simpl.
  - by intros [= <-].
  - destruct (f x) as [y |]; [| done]. simpl.
    destruct (res_mapM f l) as [ys |]; [| done]. simpl.
    intros [= <-]. simpl. by rewrite (IH ys).
Qed.

Lemma res_mapM_Raise_elem {A B} (f : A → res B) l x e0 :
  x ∈ l → f x = Raise e0 → ∃ e, res_mapM f l = Raise e.
Proof.
  intros Hx Hfx. induction Hx as [x l | x y l Hx IH]; simpl.
  - rewrite Hfx. by eexists.
  - destruct (f y) as [z |]; [| by eexists]. simpl.
    destruct (IH Hfx) as [e ->]. by eexists.
Qed.

(** When every failure is the same exception, that exception is the
    outcome as soon as one item fails. *)
Lemma res_mapM_Raise_uniform {A B} (f : A → res B) l e0 :
  (∀ x, x ∈ l → (∃ y, f x = Ok y) ∨ f x = Raise e0) →
  (∃ x, x ∈ l ∧ f x = Raise e0) →
  res_mapM f l = Raise e0.
Proof.
  intros Hall (x & Hx & Hfx). induction Hx as [x l | x y l Hx IH]; simpl.
  - by rewrite Hfx.
  - assert (y ∈ y :: l) as Hy by (by left).
    destruct (Hall y Hy) as [[z ->] | ->]; [| done]. simpl.
    rewrite IH; [done | | done]. intros x' Hx'. apply Hall. by right.
Qed.

(** ** Decimal identifiers *)

Lemma pretty_N_char_digit x : is_Some (Ascii.is_nat (pretty_N_char x)).
Proof. unfold pretty_N_char. repeat case_match; by eexists. Qed.

Lemma pretty_N_go_digits x s :
  all_digits s = true → all_digits (pretty_N_go x s) = true.
Proof.
  revert s. induction (N.lt_wf_0 x) as [x _ IH]; intros s Hs.
  assert (x = 0 ∨ 0 < x)%N as [-> | Hpos] by lia.
  - by rewrite pretty_N_go_0.
  - rewrite pretty_N_go_step by done. apply IH; [by apply N.div_lt |].
    simpl. by destruct (pretty_N_char_digit (x `mod` 10)%N) as [d ->].
Qed.

Lemma pretty_nat_digits (i : nat) : all_digits (pretty i) = true.
Proof.
  unfold pretty, pretty_nat, pretty, pretty_N.
  case_decide; [done |]. by apply pretty_N_go_digits.
Qed.

Lemma append_cons c a b : String c a +:+ b = String c (a +:+ b).
Proof. reflexivity. Qed.

Lemma append_nil b : EmptyString +:+ b = b.
Proof. reflexivity. Qed.

Lemma digits_no_underscore b d d' :
  all_digits d' = true → d' ≠ b +:+ String "_" d.
Proof.
  intros Hd' ->. induction b as [| c b IH].
  - done.
  - rewrite append_cons in Hd'. simpl in Hd'.
    destruct (Ascii.is_nat c); [by apply IH | done].
Qed.

(** After the last underscore of [base_digits] come the digits. *)
Lemma app_underscore_digits_inj b1 b2 d1 d2 :
  all_digits d1 = true → all_digits d2 = true →
  b1 +:+ String "_" d1 = b2 +:+ String "_" d2 → b1 = b2 ∧ d1 = d2.
Proof.
  intros Hd1 Hd2. revert b2.
  induction b1 as [| c1 b1 IH]; intros [| c2 b2] Heq.
  - rewrite !append_nil in Heq. by injection Heq as ->.
  - rewrite append_nil, append_cons in Heq. injection Heq as <- Heq.
    by destruct (digits_no_underscore b2 d2 d1).
  - rewrite append_nil, append_cons in Heq. injection Heq as -> Heq.
    symmetry in Heq. by destruct (digits_no_underscore b1 d1 d2).
  - rewrite !append_cons in Heq. injection Heq as -> Heq.
    by destruct (IH b2 Heq) as [-> ->].
Qed.

(** ** Paths *)

Lemma has_slash_app a b : has_slash (a +:+ b) = has_slash a || has_slash b.
Proof.
  induction a as [| c a IH]; [done |]. rewrite append_cons. simpl. by case_decide.
Qed.

Lemma basename_app_slash a f :
  has_slash f = false → basename (a +:+ "/" +:+ f) = f.
Proof.
  intros Hf. induction a as [| c a IH].
  - rewrite append_nil, append_cons, append_nil. simpl. by rewrite Hf.
  - rewrite append_cons. simpl. rewrite has_slash_app, append_cons. simpl.
    rewrite orb_true_r. exact IH.
Qed.

Lemma prefix_slash_has_slash b : String.prefix "/" b = true → has_slash b = true.
Proof.
  destruct b as [| c b]; [done |].
  change (String.prefix "/" (String c b))
    with (if ascii_dec "/" c then String.prefix EmptyString b else false).
  destruct (ascii_dec "/" c) as [<- | Hne]; [| done].
  intros _. reflexivity.
Qed.

Lemma basename_join_PDF_DIRECTORY f :
  has_slash f = false → basename (os_path_join PDF_DIRECTORY f) = f.
Proof.
  intros Hf. unfold os_path_join.
  destruct (String.prefix "/" f) eqn:Hprefix.
  - apply prefix_slash_has_slash in Hprefix. congruence.
  - change (basename ("pdfs" +:+ "/" +:+ f) = f). by apply basename_app_slash.
Qed.

(** ** More on the indexing pipeline *)

Section MoreIndexingProperties.
Context {builtins : Builtins} {Store : Type} {services : Collaborators Store}.


(** What a completed loop has appended. *)
Lemma upsert_loop_Ok_inv base chunks i metadatas metadatas' ids ids' :
  upsert_loop base i chunks metadatas ids = Ok (metadatas', ids') →
  (∃ new, metadatas' = metadatas ++ new ∧ length new = length chunks) ∧
  ids' = ids ++ (chunk_id base <$> seq i (length chunks)).
Proof.
  revert i metadatas ids. induction chunks as [| chunk chunks IH];
    intros i metadatas ids; simpl.
  - intros [= <- <-]. rewrite app_nil_r. split; [| done].
    exists []. by rewrite app_nil_r.
  - destruct (chunk_metadata chunk) as [m |]; [| done]. simpl.
    intros Hloop. apply IH in Hloop as [(new & -> & Hlen) ->]. split.
    + exists (m :: new). rewrite <- app_assoc. split; [done |]. simpl. by rewrite Hlen.
    + by rewrite <- app_assoc.
Qed.

Lemma chunk_id_pair_inj base1 base2 i j :
  chunk_id base1 i = chunk_id base2 j → base1 = base2 ∧ i = j.
Proof.
  unfold chunk_id. intros Heq.
  apply app_underscore_digits_inj in Heq as [-> Heq];
    [| apply pretty_nat_digits..].
  split; [done |]. by apply pretty_nat_inj in Heq.
Qed.

(** X1: whenever the loop over the chunks completes, whatever the chunks
    are, it has appended one metadata map and one identifier per chunk, and
    the identifiers are the base name, an underscore and the positions
    counted from the start index. *)
Theorem upsert_loop_one_entry_per_chunk
    (base : string) (chunks : list PyVal) (i : nat)
    (metadatas metadatas' : list (gmap string PyVal)) (ids ids' : list string) :
  upsert_loop base i chunks metadatas ids = Ok (metadatas', ids') →
  (∃ new, metadatas' = metadatas ++ new ∧ length new = length chunks) ∧
  ids' = ids ++ ((λ k, base +:+ "_" +:+ pretty k) <$> seq i (length chunks)).
Proof. apply upsert_loop_Ok_inv. Qed.

(** X2: a document indexed again keeps its identifiers: for the same base
    name, the identifiers of a run over fewer chunks are a prefix of those
    of a run over more chunks, and the identifiers of the further positions
    belong to the longer run only.  A shorter second parse thus reuses the
    first identifiers and leaves the later ones of the first run alone. *)
Theorem reindexing_reuses_identifiers
    (base : string) (chunks1 chunks2 : list PyVal)
    (metadatas1 metadatas2 : list (gmap string PyVal)) (ids1 ids2 : list string) :
  upsert_loop base 0 chunks1 [] [] = Ok (metadatas1, ids1) →
  upsert_loop base 0 chunks2 [] [] = Ok (metadatas2, ids2) →
  (length chunks1 ≤ length chunks2)%nat →
  ids1 `prefix_of` ids2 ∧
  ∀ k, (length chunks1 ≤ k < length chunks2)%nat →
       chunk_id base k ∈ ids2 ∧ chunk_id base k ∉ ids1.
Proof.
  intros Hloop1 Hloop2 Hle.
  apply upsert_loop_Ok_inv in Hloop1 as [_ ->].
  apply upsert_loop_Ok_inv in Hloop2 as [_ ->].
  rewrite !app_nil_l. split.
  - exists (chunk_id base <$> seq (length chunks1) (length chunks2 - length chunks1)).
    rewrite <- fmap_app, <- seq_app. do 2 f_equal. lia.
  - intros k [Hk1 Hk2]. split.
    + apply list_elem_of_fmap_2, elem_of_seq. lia.
    + intros Hin. apply (list_elem_of_fmap_inj_2 (chunk_id base)) in Hin.
      apply elem_of_seq in Hin. lia.
Qed.

(** X3: the identifier tells the document and the position: two identifiers
    are equal only if both the base names and the positions are, because
    the position is written in decimal digits after the last underscore. *)
Theorem chunk_id_tells_document_and_position (base1 base2 : string) (i j : nat) :
  chunk_id base1 i = chunk_id base2 j ↔ base1 = base2 ∧ i = j.
Proof.
  split; [apply chunk_id_pair_inj | by intros [-> ->]].
Qed.

(** X4: the metadata of a chunk dict is built exactly when [int] accepts
    the page number (0 when absent) and the path (empty when absent) can be
    joined; a chunk that is not a dict always fails. *)
Theorem metadata_built_iff (chunk : PyVal) :
  (∃ metadata, chunk_metadata chunk = Ok metadata) ↔
  ∃ d, chunk = VDict d ∧
       (∃ page, py_int (default (VInt 0) (d !! "page_number")) = Ok page) ∧
       (∃ path, py_join " > " (default (VList []) (d !! "full_path")) = Ok path).
Proof.
  split.
  - intros [metadata Hmeta]. destruct chunk as [| | | | | d]; try done.
    exists d. split; [done |]. unfold chunk_metadata in Hmeta.
    cbn [py_get res_bind] in Hmeta.
    destruct (py_int _) as [page |]; [| done]. cbn [res_bind] in Hmeta.
    destruct (py_join _ _) as [path |]; [| done]. eauto.
  - intros (d & -> & [page Hpage] & [path Hpath]).
    unfold chunk_metadata. cbn [py_get res_bind]. rewrite Hpage, Hpath. by eexists.
Qed.

(** X5: if one item of the parse result is not a dict, the run raises
    before any collaborator is called: the world, store and call log, is
    the one the run started in. *)
Theorem malformed_item_aborts_before_any_call
    (pdf_path model_path encoder_path : string) (items : list PyVal)
    (item : PyVal) (w : World Store) :
  parse_document_to_sections pdf_path model_path encoder_path = Ok (VList items) →
  item ∈ items →
  is_dict item = false →
  ∃ e, process_and_index_pdf_async pdf_path model_path encoder_path w = (Raise e, w).
Proof.
  intros Hparse Hitem Hdict.
  assert (_prepare_chunk_for_embedding item = Raise AttributeError) as Hprepare
    by (by destruct item).
  destruct (res_mapM_Raise_elem _ _ _ _ Hitem Hprepare) as [e Htexts].
  exists e. unfold process_and_index_pdf_async. step. rewrite Hparse.
  assert (py_truthy (VList items) = true) as -> by (by destruct Hitem).
  cbn [negb]. step. cbn [py_len]. step. cbn [py_iter]. step. by rewrite Htexts.
Qed.



(** X8: whatever the parser and the services return, a run adds to the call
    log nothing, or one embedding call, or one embedding call followed by
    one [add] call whose documents, metadata maps and identifiers are
    equally many; it never queries the store or calls the generation
    client, and without an [add] call the store is unchanged. *)
Theorem indexing_call_discipline
    (pdf_path model_path encoder_path : string) (w : World Store) :
  let out := process_and_index_pdf_async pdf_path model_path encoder_path w in
  ∃ l,
    calls out.2 = calls w ++ l ∧
    indexing_calls l ∧
    (existsb is_add l = false → store out.2 = store w).
Proof.
  cbv zeta.
  cut (∃ l r s,
         process_and_index_pdf_async pdf_path model_path encoder_path w
           = (r, mkWorld s (calls w ++ l)) ∧
         indexing_calls l ∧ (existsb is_add l = false → s = store w)).
  { intros (l & r & s & -> & Hcalls & Hstore). by exists l. }
  destruct w as [s0 log0]. cbn [calls store].
  unfold process_and_index_pdf_async.
  assert (∀ content, indexing_calls
            [EmbedContentAsync EMBEDDING_MODEL content "RETRIEVAL_DOCUMENT"]) as Hone
    by (intros content; right; left; by eexists).
  assert (∀ r : res PyVal, ∃ l r' s,
            (r, mkWorld s0 log0) = (r', mkWorld s (log0 ++ l)) ∧
            indexing_calls l ∧ (existsb is_add l = false → s = s0)) as Hnone.
  { intros r. exists [], r, s0. rewrite app_nil_r. split_and!; [done | by left | done]. }
  assert (∀ (r : res PyVal) content, ∃ l r' s,
            (r, log (EmbedContentAsync EMBEDDING_MODEL content "RETRIEVAL_DOCUMENT")
                  (mkWorld s0 log0))
            = (r', mkWorld s (log0 ++ l)) ∧
            indexing_calls l ∧ (existsb is_add l = false → s = s0)) as Hembed.
  { intros r content. eexists [_], r, s0. split_and!; [done | apply Hone | done]. }
  step. destruct (parse_document_to_sections _ _ _) as [parsed |]; [| apply Hnone].
  destruct (py_truthy parsed); cbn [negb]; [| apply Hnone].
  step. destruct (py_len parsed); [| apply Hnone].
  step. destruct (py_iter parsed) as [items |]; [| apply Hnone].
  step. destruct (res_mapM _prepare_chunk_for_embedding items) as [texts |] eqn:Htexts;
    [| apply Hnone].
  unfold M_bind at 1, call_embed_content_async at 1.
  destruct (embed_content_async _ _ _) as [result |]; [| apply Hembed].
  step. destruct (py_getitem_str result "embedding") as [embeddings |]; [| apply Hembed].
  step. destruct (py_len embeddings); [| apply Hembed].
  step. destruct (upsert_loop _ _ _ _ _) as [[metadatas ids] |] eqn:Hloop;
    [| apply Hembed].
  apply upsert_loop_Ok_inv in Hloop as [(new & -> & Hnew) ->].
  apply res_mapM_length in Htexts.
  unfold M_bind, call_collection_add, M_ret, log. cbn [store calls].
  destruct (collection_add _ _ _ _ _) as [s |]; eexists [_; _], _, _.
  all: split_and!; [by rewrite <- app_assoc | | done].
  all: right; right; eexists _, _, _, _, _; split; [done |].
  all: rewrite !app_nil_l, length_fmap, length_seq; split; congruence.
Qed.
End MoreIndexingProperties.

(** ** More on the retrieval handler and the endpoint *)

Section ReadOnly.
Context {Store : Type}.

Lemma read_only_ret {A} (a : A) : read_only (Store := Store) 0 (M_ret a).
Proof.
  intros [s l]. exists (Ok a), []. cbn [store calls]. rewrite app_nil_r. by split_and!.
Qed.

Lemma read_only_lift {A} (r : res A) : read_only (Store := Store) 0 (lift r).
Proof.
  intros [s l]. exists r, []. cbn [store calls]. rewrite app_nil_r. by split_and!.
Qed.

Lemma read_only_weaken {A} n n' (m : M Store A) :
  (n ≤ n')%nat → read_only n m → read_only n' m.
Proof.
  intros Hle Hm w. destruct (Hm w) as (r & l & Hrun & Hadd & Hlen).
  exists r, l. split_and!; [done | done | lia].
Qed.

Lemma existsb_is_add_app (l1 l2 : list Call) :
  existsb is_add l1 = false → existsb is_add l2 = false →
  existsb is_add (l1 ++ l2) = false.
Proof. intros H1 H2. by rewrite existsb_app, H1, H2. Qed.

Lemma read_only_bind {A B} n1 n2 (m : M Store A) (k : A → M Store B) :
  read_only n1 m → (∀ a, read_only n2 (k a)) → read_only (n1 + n2) (M_bind m k).
Proof.
  intros Hm Hk w. unfold M_bind.
  destruct (Hm w) as (r & l1 & -> & Hadd1 & Hlen1). destruct r as [a | e].
  - destruct (Hk a (mkWorld (store w) (calls w ++ l1))) as (r & l2 & -> & Hadd2 & Hlen2).
    exists r, (l1 ++ l2). cbn [store calls]. rewrite <- app_assoc.
    split_and!; [done | by apply existsb_is_add_app | rewrite length_app; lia].
  - exists (Raise e), l1. split_and!; [done | done | lia].
Qed.

Lemma read_only_try_except {A} n1 n2 (body : M Store A) (handler : exn → M Store A) :
  read_only n1 body → (∀ e, read_only n2 (handler e)) →
  read_only (n1 + n2) (try_except body handler).
Proof.
  intros Hbody Hhandler w. unfold try_except.
  destruct (Hbody w) as (r & l1 & -> & Hadd1 & Hlen1). destruct r as [a | e].
  - exists (Ok a), l1. split_and!; [done | done | lia].
  - destruct (Hhandler e (mkWorld (store w) (calls w ++ l1)))
      as (r & l2 & -> & Hadd2 & Hlen2).
    exists r, (l1 ++ l2). cbn [store calls]. rewrite <- app_assoc.
    split_and!; [done | by apply existsb_is_add_app | rewrite length_app; lia].
Qed.
End ReadOnly.

Section MoreHandlerProperties.
Context {builtins : Builtins} {console : Console}
  {Store : Type} {services : Collaborators Store}.

Lemma read_only_embed model content task_type :
  read_only 1 (call_embed_content model content task_type).
Proof. intros w. eexists _, [_]. by split_and!. Qed.

Lemma read_only_query query_embeddings n_results :
  read_only 1 (call_collection_query query_embeddings n_results).
Proof. intros w. eexists _, [_]. by split_and!. Qed.

Lemma read_only_generate prompt : read_only 1 (call_generate_content prompt).
Proof. intros w. eexists _, [_]. by split_and!. Qed.

Lemma read_only_retrieve user_selection top_k :
  read_only 2 (retrieve_relevant_sections user_selection top_k).
Proof.
  unfold retrieve_relevant_sections.
  apply (read_only_bind 1 1); [apply read_only_embed |]. intros result.
  apply (read_only_bind 0 1); [apply read_only_lift |]. intros query_embedding.
  apply (read_only_bind 1 0); [apply read_only_query |]. intros query_results.
  apply (read_only_bind 0 0); [apply read_only_lift |]. intros metadatas.
  apply (read_only_bind 0 0); [apply read_only_lift |]. intros retrieved.
  apply (read_only_bind 0 0); [apply read_only_lift |]. intros _.
  apply read_only_ret.
Qed.

Lemma read_only_generate_insights user_selection context_sections :
  read_only 1 (generate_insights user_selection context_sections).
Proof.
  unfold generate_insights. destruct (negb (py_truthy context_sections)).
  { apply (read_only_weaken 0); [lia | apply read_only_ret]. }
  apply (read_only_bind 0 1); [apply read_only_lift |]. intros prompt.
  apply (read_only_try_except 1 0).
  - apply (read_only_bind 1 0); [apply read_only_generate |]. intros text.
    apply read_only_ret.
  - intros e. apply read_only_ret.
Qed.

Lemma read_only_get_insights_for_selection user_selection :
  read_only 3 (get_insights_for_selection user_selection).
Proof.
  unfold get_insights_for_selection.
  apply (read_only_bind 2 1); [apply read_only_retrieve |]. intros sections.
  apply (read_only_bind 1 0); [apply read_only_generate_insights |]. intros generated.
  apply read_only_ret.
Qed.

(** X9: answering a request never writes to the store: whatever the body
    and whatever the services do, the view function leaves the store as it
    was and adds at most three calls to the log (embedding, query,
    generation), none of them an [add]. *)
Theorem request_never_writes_store
    (retrieval_handler : option RetrievalHandler) (request_json : res PyVal)
    (w : World Store) :
  let out := get_insights retrieval_handler request_json w in
  store out.2 = store w ∧
  ∃ l, calls out.2 = calls w ++ l ∧ existsb is_add l = false ∧ (length l ≤ 3)%nat.
Proof.
  cbv zeta.
  cut (read_only 3 (get_insights retrieval_handler request_json)).
  { intros Hread. destruct (Hread w) as (r & l & -> & Hadd & Hlen).
    split; [done |]. by exists l. }
  unfold get_insights. destruct retrieval_handler as [h |].
  2: { apply (read_only_weaken 0); [lia | apply read_only_ret]. }
  apply (read_only_bind 0 3); [apply read_only_lift |]. intros data.
  apply (read_only_bind 0 3); [apply read_only_lift |]. intros [|].
  { apply (read_only_weaken 0); [lia | apply read_only_ret]. }
  apply (read_only_bind 0 3); [apply read_only_lift |]. intros user_selection.
  apply (read_only_bind 0 3); [apply read_only_lift |]. intros shown.
  apply (read_only_bind 0 3); [apply read_only_lift |]. intros _.
  apply (read_only_try_except 3 0).
  - apply (read_only_bind 3 0); [apply read_only_get_insights_for_selection |].
    intros results. apply read_only_ret.
  - intros e. apply read_only_ret.
Qed.

Lemma retrieve_after_query user_selection top_k w result query_embedding answer :
  embed_content EMBEDDING_MODEL user_selection "RETRIEVAL_QUERY" = Ok result →
  py_getitem_str result "embedding" = Ok query_embedding →
  collection_query (store w) (VList [query_embedding]) top_k = Ok answer →
  retrieve_relevant_sections user_selection top_k w
  = (metadatas ← lift (py_get answer "metadatas" (VList [VList []]));
     retrieved_metadatas ← lift (py_getitem_nat metadatas 0);
     _ ← lift (py_len retrieved_metadatas);
     M_ret retrieved_metadatas)%M
      (mkWorld (store w)
         (calls w ++ [EmbedContent EMBEDDING_MODEL user_selection "RETRIEVAL_QUERY";
                      CollectionQuery (VList [query_embedding]) top_k])).
Proof.
  intros Hembed Hitem Hquery. unfold retrieve_relevant_sections.
  unfold M_bind at 1, call_embed_content at 1. rewrite Hembed.
  step. rewrite Hitem.
  unfold M_bind at 1, call_collection_query at 1. cbn [log store]. rewrite Hquery.
  unfold log. cbn [store calls]. by rewrite <- app_assoc.
Qed.

(** X10: when the answer of the store has no ["metadatas"] key, the
    default [[[]]] applies: the retrieval returns the empty list, the
    handler answers with the fixed no-context message, and the generation
    client is not called. *)
Theorem missing_metadatas_key_means_no_context
    (user_selection : PyVal) (w : World Store)
    (result query_embedding : PyVal) (d : PyDict) :
  embed_content EMBEDDING_MODEL user_selection "RETRIEVAL_QUERY" = Ok result →
  py_getitem_str result "embedding" = Ok query_embedding →
  collection_query (store w) (VList [query_embedding]) DEFAULT_TOP_K = Ok (VDict d) →
  d !! "metadatas" = None →
  get_insights_for_selection user_selection w
  = (Ok (VDict (py_dict [("retrieved_sections", VList []);
                         ("generated_insights", VStr NO_CONTEXT_MESSAGE)])),
     mkWorld (store w)
       (calls w ++ [EmbedContent EMBEDDING_MODEL user_selection "RETRIEVAL_QUERY";
                    CollectionQuery (VList [query_embedding]) DEFAULT_TOP_K])).
Proof.
  intros Hembed Hitem Hquery Hmeta. unfold get_insights_for_selection.
  unfold M_bind at 1. rewrite (retrieve_after_query _ _ _ _ _ _ Hembed Hitem Hquery).
  step. cbn [py_get]. rewrite Hmeta. reflexivity.
Qed.

(** X11: when ["metadatas"] of the answer holds no result list, the
    retrieval raises after the query, [IndexError] for an empty list and
    [TypeError] for [None]; the handler passes the exception on without
    calling the generation client. *)
Theorem answer_without_result_list_raises
    (user_selection : PyVal) (w : World Store)
    (result query_embedding : PyVal) (d : PyDict) (e : exn) :
  embed_content EMBEDDING_MODEL user_selection "RETRIEVAL_QUERY" = Ok result →
  py_getitem_str result "embedding" = Ok query_embedding →
  collection_query (store w) (VList [query_embedding]) DEFAULT_TOP_K = Ok (VDict d) →
  (d !! "metadatas" = Some (VList []) ∧ e = IndexError) ∨
  (d !! "metadatas" = Some VNone ∧ e = TypeError) →
  get_insights_for_selection user_selection w
  = (Raise e,
     mkWorld (store w)
       (calls w ++ [EmbedContent EMBEDDING_MODEL user_selection "RETRIEVAL_QUERY";
                    CollectionQuery (VList [query_embedding]) DEFAULT_TOP_K])).
Proof.
  intros Hembed Hitem Hquery Hmeta. unfold get_insights_for_selection.
  unfold M_bind at 1. rewrite (retrieve_after_query _ _ _ _ _ _ Hembed Hitem Hquery).
  step. cbn [py_get].
  destruct Hmeta as [[-> ->] | [-> ->]]; reflexivity.
Qed.

(** X12: a retrieved section that is not a dict (the [None] of an entry
    stored without metadata) is not absorbed: [generate_insights] raises
    [AttributeError] while it renders the context, before the generation
    client is called, and the handler passes it on. *)
Theorem non_dict_section_is_not_absorbed
    (user_selection : PyVal) (sections : list PyVal) (section : PyVal)
    (w w1 : World Store) :
  section ∈ sections →
  is_dict section = false →
  generate_insights user_selection (VList sections) w1 = (Raise AttributeError, w1) ∧
  (retrieve_relevant_sections user_selection DEFAULT_TOP_K w = (Ok (VList sections), w1) →
   get_insights_for_selection user_selection w = (Raise AttributeError, w1)).
Proof.
  intros Hin Hdict.
  assert (generate_insights user_selection (VList sections) w1
          = (Raise AttributeError, w1)) as Hgenerate.
  { unfold generate_insights.
    assert (py_truthy (VList sections) = true) as -> by (by destruct Hin).
    cbn [negb]. step. unfold build_prompt. cbn [py_iter res_bind].
    rewrite (res_mapM_Raise_uniform format_context_item sections AttributeError);
      [done | |].
    - intros [] _; eauto.
    - exists section. split; [done |]. by destruct section. }
  split; [done |]. intros Hretrieve.
  unfold get_insights_for_selection. unfold M_bind at 1. rewrite Hretrieve.
  unfold M_bind at 1. by rewrite Hgenerate.
Qed.

Lemma get_insights_for_selection_Ok_shape user_selection w results w' :
  get_insights_for_selection user_selection w = (Ok results, w') →
  ∃ sections generated,
    results = VDict (py_dict [("retrieved_sections", sections);
                              ("generated_insights", VStr generated)]).
Proof.
  unfold get_insights_for_selection. unfold M_bind at 1.
  destruct (retrieve_relevant_sections _ _ w) as [[sections |] w1]; [| done].
  unfold M_bind at 1.
  destruct (generate_insights _ _ w1) as [[generated |] w2]; [| done].
  unfold M_ret. intros [= <- _]. by eexists _, _.
Qed.

(** X13: for a JSON object with a string under ["selection"], once the
    start of the string has been echoed on standard output the view function
    always returns: either status 200 with a body that has the two keys
    ["retrieved_sections"] and ["generated_insights"], in this order, the
    latter a string, or status 500 with the generic error body.  When
    standard output refuses the echo, [UnicodeEncodeError] leaves the view
    function and no service has been called. *)
Theorem string_selection_is_answered_200_or_500
    (h : RetrievalHandler) (d : PyDict) (s : string) (shown : PyVal)
    (w : World Store) :
  d !! "selection" = Some (VStr s) →
  py_slice_to (VStr s) 50 = Ok shown →
  (stdout_encodes (received_line shown) = true →
   ∃ w',
     get_insights (Some h) (Ok (VDict d)) w
       = (Ok (mkResponse (error_body INTERNAL_ERROR_MESSAGE) 500), w') ∨
     ∃ sections generated,
       get_insights (Some h) (Ok (VDict d)) w
       = (Ok (mkResponse
                (VDict (py_dict [("retrieved_sections", sections);
                                 ("generated_insights", VStr generated)])) 200), w')) ∧
  (stdout_encodes (received_line shown) = false →
   get_insights (Some h) (Ok (VDict d)) w = (Raise UnicodeEncodeError, w)).
Proof.
  intros Hsel Hslice. split; intros Hprint.
  - rewrite (get_insights_sliceable _ _ _ _ _ Hsel Hslice Hprint).
    destruct (get_insights_for_selection (VStr s) w) as [[results | e] w'] eqn:Hrun.
    + exists w'. right.
      destruct (get_insights_for_selection_Ok_shape _ _ _ _ Hrun)
        as (sections & generated & ->).
      by exists sections, generated.
    + exists w'. by left.
  - by eapply get_insights_unprintable.
Qed.

(** X14: with a handler in place, the view function lets an exception
    escape exactly on the bodies [escapes] lists, and then before any
    service is called; on every other parsed body it returns a response
    with status 200, 400 or 500. *)
Theorem view_function_escapes
    (h : RetrievalHandler) (data : PyVal) (w : World Store) :
  (escapes data = true →
   ∃ e, get_insights (Some h) (Ok data) w = (Raise e, w)) ∧
  (escapes data = false →
   ∃ response w',
     get_insights (Some h) (Ok data) w = (Ok response, w') ∧
     (status response = 200 ∨ status response = 400 ∨ status response = 500)).
Proof.
  assert (∀ data', lacks_selection data' = Ok true →
            ∃ response w',
              get_insights (Some h) (Ok data') w = (Ok response, w') ∧
              (status response = 200 ∨ status response = 400 ∨ status response = 500))
    as Hmissing.
  { intros data' Hlacks. rewrite (get_insights_missing _ _ _ Hlacks).
    eexists _, _. split; [done |]. right. by left. }
  assert (∀ (d : PyDict) selection shown,
            d !! "selection" = Some selection →
            py_slice_to selection 50 = Ok shown →
            stdout_encodes (received_line shown) = true →
            ∃ response w',
              get_insights (Some h) (Ok (VDict d)) w = (Ok response, w') ∧
              (status response = 200 ∨ status response = 400 ∨ status response = 500))
    as Hselected.
  { intros d selection shown Hsel Hslice Hprint.
    rewrite (get_insights_sliceable _ _ _ _ _ Hsel Hslice Hprint).
    destruct (get_insights_for_selection selection w) as [[results | e] w'];
      eexists _, _; (split; [done |]); [by left | by right; right]. }
  assert (∀ (d : PyDict) selection shown,
            d !! "selection" = Some selection →
            py_slice_to selection 50 = Ok shown →
            stdout_encodes (received_line shown) = false →
            ∃ e, get_insights (Some h) (Ok (VDict d)) w = (Raise e, w))
    as Hrefused.
  { intros d selection shown Hsel Hslice Hprint. exists UnicodeEncodeError.
    by eapply get_insights_unprintable. }
  destruct data as [| b | z | s | l | d]; cbn [escapes]; split; intros Hescapes;
    try done.
  - by apply Hmissing.
  - subst b. by exists TypeError.
  - subst b. by apply Hmissing.
  - exists TypeError. unfold get_insights. step. step. unfold lacks_selection.
    cbn [py_truthy]. by rewrite Hescapes.
  - apply Hmissing. unfold lacks_selection. cbn [py_truthy].
    by rewrite Hescapes.
  - exists TypeError. unfold get_insights. step. step. unfold lacks_selection.
    assert (py_truthy (VStr s) = true) as -> by (by destruct s).
    cbn [negb py_contains_str res_bind]. by rewrite Hescapes.
  - apply Hmissing. unfold lacks_selection.
    destruct (py_truthy (VStr s)); cbn [negb py_contains_str res_bind]; [| done].
    by rewrite Hescapes.
  - exists TypeError. unfold get_insights. step. step. unfold lacks_selection.
    assert (py_truthy (VList l) = true) as -> by (by destruct l).
    cbn [negb py_contains_str res_bind]. by rewrite Hescapes.
  - apply Hmissing. unfold lacks_selection.
    destruct (py_truthy (VList l)); cbn [negb py_contains_str res_bind]; [| done].
    by rewrite Hescapes.
  - destruct (d !! "selection") as [selection |] eqn:Hsel; [| done].
    destruct selection as [| b | z | s | l | d'];
      try (exists TypeError; unfold get_insights; step; step;
           rewrite lacks_selection_dict, Hsel;
           step; cbn [py_getitem_str]; rewrite Hsel; by step).
    + apply negb_true_iff in Hescapes. by eapply Hrefused.
    + apply negb_true_iff in Hescapes. by eapply Hrefused.
  - destruct (d !! "selection") as [selection |] eqn:Hsel.
    + destruct selection; try done;
        apply negb_false_iff in Hescapes; by eapply Hselected.
    + apply Hmissing. by rewrite lacks_selection_dict, Hsel.
Qed.
End MoreHandlerProperties.

(** ** The indexing driver *)

Lemma Forall_filter_keep {A} (P Q : A → Prop) `{!∀ x, Decision (Q x)} (l : list A) :
  Forall P l → Forall P (filter Q l).
Proof.
  rewrite !Forall_forall. intros Hall x Hx.
  apply list_elem_of_filter in Hx as [_ Hx]. by apply Hall.
Qed.

Section MainProperties.
Context {Store : Type} {services : Collaborators Store} {fs : FileSystem}.

Lemma main_Gathered GOOGLE_API_KEY tasks entries :
  main GOOGLE_API_KEY = Ok (Gathered tasks) →
  os_listdir PDF_DIRECTORY = Ok entries →
  tasks = (λ pdf_file, (os_path_join PDF_DIRECTORY pdf_file, MODEL_PATH, ENCODER_PATH))
            <$> filter (λ f : string, is_pdf f) entries.
Proof.
  unfold main. intros Hmain Hlist.
  destruct (negb (py_truthy GOOGLE_API_KEY)); [done |].
  destruct (_ || _); [done |].
  destruct (negb (os_path_isdir PDF_DIRECTORY)); [done |].
  destruct (IndexingPipeline_init GOOGLE_API_KEY); [| done].
  rewrite Hlist in Hmain. cbn [res_bind] in Hmain.
  destruct (filter _ entries); [done |]. by injection Hmain as <-.
Qed.

Lemma basename_tasks (entries : list string) :
  Forall (λ f, has_slash f = false) entries →
  (λ task : string * string * string, basename task.1.1)
    <$> ((λ pdf_file, (os_path_join PDF_DIRECTORY pdf_file, MODEL_PATH, ENCODER_PATH))
           <$> entries)
  = entries.
Proof.
  induction 1 as [| f entries Hf _ IH]; [done |].
  rewrite !fmap_cons, IH. cbn [fst]. by rewrite basename_join_PDF_DIRECTORY.
Qed.

(** X15: when [main] reaches the gather, it has created one task per
    directory entry whose name ends in [.pdf] in any letter case, in the
    order of the listing, each with the two classifier paths; and the base
    name of a task's path is the entry itself, so the identifiers of that
    document start with the file name.  Entries are plain names, without a
    slash. *)
Theorem main_gathers_one_task_per_pdf
    (GOOGLE_API_KEY : PyVal) (tasks : list (string * string * string))
    (entries : list string) :
  main GOOGLE_API_KEY = Ok (Gathered tasks) →
  os_listdir PDF_DIRECTORY = Ok entries →
  Forall (λ f, has_slash f = false) entries →
  (λ task : string * string * string, basename task.1.1) <$> tasks
    = filter (λ f : string, is_pdf f) entries ∧
  tasks ≠ [] ∧
  Forall (λ task : string * string * string,
            task.1.2 = MODEL_PATH ∧ task.2 = ENCODER_PATH) tasks.
Proof.
  intros Hmain Hlist Hentries.
  pose proof (main_Gathered _ _ _ Hmain Hlist) as ->. split_and!.
  - apply basename_tasks. by apply Forall_filter_keep.
  - unfold main in Hmain.
    destruct (negb (py_truthy GOOGLE_API_KEY)); [done |].
    destruct (_ || _); [done |].
    destruct (negb (os_path_isdir PDF_DIRECTORY)); [done |].
    destruct (IndexingPipeline_init GOOGLE_API_KEY); [| done].
    rewrite Hlist in Hmain. cbn [res_bind] in Hmain.
    by destruct (filter _ entries).
  - apply Forall_fmap, Forall_forall. by intros f _.
Qed.

(** X16: the identifiers of two documents of one gather never meet: with
    distinct plain names in the directory, an identifier of the task at one
    position equals an identifier of the task at another only if the
    positions of the tasks and of the chunks are the same. *)
Theorem gathered_documents_have_disjoint_identifiers
    (GOOGLE_API_KEY : PyVal) (tasks : list (string * string * string))
    (entries : list string) (a b : nat) (task1 task2 : string * string * string)
    (i j : nat) :
  main GOOGLE_API_KEY = Ok (Gathered tasks) →
  os_listdir PDF_DIRECTORY = Ok entries →
  Forall (λ f, has_slash f = false) entries →
  NoDup entries →
  tasks !! a = Some task1 →
  tasks !! b = Some task2 →
  chunk_id (basename task1.1.1) i = chunk_id (basename task2.1.1) j →
  a = b ∧ i = j.
Proof.
  intros Hmain Hlist Hentries Hnodup Ha Hb Hid.
  apply chunk_id_pair_inj in Hid as [Hbase ->].
  split; [| done].
  pose proof (main_Gathered _ _ _ Hmain Hlist) as Htasks.
  assert (NoDup ((λ task : string * string * string, basename task.1.1) <$> tasks))
    as Hbases.
  { rewrite Htasks, basename_tasks; [by apply NoDup_filter | by apply Forall_filter_keep]. }
  eapply (NoDup_lookup _ a b (basename task1.1.1)); [exact Hbases | |].
  - by rewrite list_lookup_fmap, Ha.
  - by rewrite list_lookup_fmap, Hb, Hbase.
Qed.
End MainProperties.

(** ** The further properties at work on the test doubles *)

Lemma upsert_loop_one_entry_per_chunk_witness :
  upsert_loop (builtins := fake_builtins) "a.pdf" 0
    [VDict (py_dict []); VDict (py_dict [("page_number", VStr "7")])] [] []
  = Ok ([<["document_name" := VStr EmptyString]>
          (<["page_number" := VInt 0]>
          (<["section_title" := VStr EmptyString]>
          (<["full_path" := VStr EmptyString]>
          (<["original_content" := VStr EmptyString]> ∅))));
         <["document_name" := VStr EmptyString]>
          (<["page_number" := VInt 7]>
          (<["section_title" := VStr EmptyString]>
          (<["full_path" := VStr EmptyString]>
          (<["original_content" := VStr EmptyString]> ∅))))],
        ["a.pdf_0"; "a.pdf_1"]) ∧
  (∃ new : list (gmap string PyVal), length new = 2%nat).
Proof.
  assert (upsert_loop (builtins := fake_builtins) "a.pdf" 0
            [VDict (py_dict []); VDict (py_dict [("page_number", VStr "7")])] [] []
          = Ok ([<["document_name" := VStr EmptyString]>
                  (<["page_number" := VInt 0]>
                  (<["section_title" := VStr EmptyString]>
                  (<["full_path" := VStr EmptyString]>
                  (<["original_content" := VStr EmptyString]> ∅))));
                 <["document_name" := VStr EmptyString]>
                  (<["page_number" := VInt 7]>
                  (<["section_title" := VStr EmptyString]>
                  (<["full_path" := VStr EmptyString]>
                  (<["original_content" := VStr EmptyString]> ∅))))],
                ["a.pdf_0"; "a.pdf_1"])) as Hloop by reflexivity.
  split; [exact Hloop |].
  destruct (upsert_loop_one_entry_per_chunk _ _ _ _ _ _ _ Hloop)
    as [(new & _ & Hlen) _].
  by exists new.
Defined.

Lemma reindexing_reuses_identifiers_witness :
  ["a.pdf_0"] `prefix_of` ["a.pdf_0"; "a.pdf_1"] ∧
  "a.pdf_1" ∈ ["a.pdf_0"; "a.pdf_1"] ∧ "a.pdf_1" ∉ ["a.pdf_0"].
Proof.
  destruct (reindexing_reuses_identifiers (builtins := fake_builtins)
              "a.pdf" [VDict (py_dict [])] [VDict (py_dict []); VDict (py_dict [])]
              [indexed_metadata (mkSectionChunk EmptyString 0 EmptyString [] EmptyString)]
              [indexed_metadata (mkSectionChunk EmptyString 0 EmptyString [] EmptyString);
               indexed_metadata (mkSectionChunk EmptyString 0 EmptyString [] EmptyString)]
              ["a.pdf_0"] ["a.pdf_0"; "a.pdf_1"])
    as [Hprefix Hlater]; [reflexivity | reflexivity | simpl; lia |].
  split; [exact Hprefix |]. apply (Hlater 1%nat). simpl. lia.
Defined.

Lemma malformed_item_aborts_before_any_call_witness :
  ∃ e,
    process_and_index_pdf_async (builtins := fake_builtins)
      (services := fake_parser_returns (VList [VDict (py_dict []); VNone]))
      "pdfs/guide.pdf" MODEL_PATH ENCODER_PATH indexed_world
    = (Raise e, indexed_world).
Proof.
  apply (malformed_item_aborts_before_any_call (builtins := fake_builtins)
           (services := fake_parser_returns (VList [VDict (py_dict []); VNone]))
           "pdfs/guide.pdf" MODEL_PATH ENCODER_PATH [VDict (py_dict []); VNone] VNone);
    [reflexivity | by right; left | reflexivity].
Defined.



Lemma missing_metadatas_key_means_no_context_witness :
  get_insights_for_selection (builtins := fake_builtins)
    (services := fake_query_returns (VDict (py_dict []))) (VStr "light") indexed_world
  = (Ok (VDict (py_dict [("retrieved_sections", VList []);
                         ("generated_insights", VStr NO_CONTEXT_MESSAGE)])),
     mkWorld (store indexed_world)
       (calls indexed_world ++
        [EmbedContent EMBEDDING_MODEL (VStr "light") "RETRIEVAL_QUERY";
         CollectionQuery (VList [VList [VInt 0]]) DEFAULT_TOP_K])).
Proof.
  eapply (missing_metadatas_key_means_no_context (builtins := fake_builtins)
            (services := fake_query_returns (VDict (py_dict [])))
            (VStr "light") indexed_world);
    reflexivity.
Defined.

Lemma answer_without_result_list_raises_witness :
  get_insights_for_selection (builtins := fake_builtins)
    (services := fake_query_returns (VDict (py_dict [("metadatas", VList [])])))
    (VStr "light") empty_world
  = (Raise IndexError,
     mkWorld []
       [EmbedContent EMBEDDING_MODEL (VStr "light") "RETRIEVAL_QUERY";
        CollectionQuery (VList [VList [VInt 0]]) DEFAULT_TOP_K]).
Proof.
  eapply (answer_without_result_list_raises (builtins := fake_builtins)
            (services := fake_query_returns (VDict (py_dict [("metadatas", VList [])])))
            (VStr "light") empty_world);
    [reflexivity | reflexivity | reflexivity | by left].
Defined.

Lemma non_dict_section_is_not_absorbed_witness :
  get_insights_for_selection (builtins := fake_builtins)
    (services := fake_query_returns
                   (VDict (py_dict [("metadatas", VList [VList [VNone]])])))
    (VStr "light") empty_world
  = (Raise AttributeError,
     mkWorld []
       [EmbedContent EMBEDDING_MODEL (VStr "light") "RETRIEVAL_QUERY";
        CollectionQuery (VList [VList [VInt 0]]) DEFAULT_TOP_K]).
Proof.
  destruct (non_dict_section_is_not_absorbed (builtins := fake_builtins)
              (services := fake_query_returns
                             (VDict (py_dict [("metadatas", VList [VList [VNone]])])))
              (VStr "light") [VNone] VNone empty_world
              (mkWorld []
                 [EmbedContent EMBEDDING_MODEL (VStr "light") "RETRIEVAL_QUERY";
                  CollectionQuery (VList [VList [VInt 0]]) DEFAULT_TOP_K]))
    as [_ Hhandler]; [by left | reflexivity |].
  apply Hhandler. reflexivity.
Defined.

Lemma string_selection_is_answered_200_or_500_witness :
  (∃ w',
     get_insights (builtins := fake_builtins) (console := utf8_stdout)
       (services := fake_embedding_down)
       (Some mkRetrievalHandler) (Ok (selection_request (VStr "light"))) empty_world
       = (Ok (mkResponse (error_body INTERNAL_ERROR_MESSAGE) 500), w') ∨
     ∃ sections generated,
       get_insights (builtins := fake_builtins) (console := utf8_stdout)
         (services := fake_embedding_down)
         (Some mkRetrievalHandler) (Ok (selection_request (VStr "light"))) empty_world
       = (Ok (mkResponse
                (VDict (py_dict [("retrieved_sections", sections);
                                 ("generated_insights", VStr generated)])) 200), w')) ∧
  get_insights (builtins := fake_builtins) (console := utf8_stdout)
    (services := fake_collaborators)
    (Some mkRetrievalHandler)
    (Ok (selection_request (VStr ("light" +:+ LONE_SURROGATE)))) indexed_world
  = (Raise UnicodeEncodeError, indexed_world).
Proof.
  split.
  - apply (string_selection_is_answered_200_or_500
             (builtins := fake_builtins) (console := utf8_stdout)
             (services := fake_embedding_down)
             mkRetrievalHandler (py_dict [("selection", VStr "light")]) "light"
             (VStr "light") empty_world);
      reflexivity.
  - apply (string_selection_is_answered_200_or_500
             (builtins := fake_builtins) (console := utf8_stdout)
             (services := fake_collaborators)
             mkRetrievalHandler
             (py_dict [("selection", VStr ("light" +:+ LONE_SURROGATE))])
             ("light" +:+ LONE_SURROGATE)
             (VStr ("light" +:+ LONE_SURROGATE)) indexed_world);
      reflexivity.
Defined.

Lemma main_gathers_one_task_per_pdf_witness :
  main (services := fake_collaborators) (fs := fake_fs fake_entries) (VStr "key")
  = Ok (Gathered [("pdfs/guide.pdf", MODEL_PATH, ENCODER_PATH);
                  ("pdfs/Report.PDF", MODEL_PATH, ENCODER_PATH)]) ∧
  (λ task : string * string * string, basename task.1.1)
    <$> [("pdfs/guide.pdf", MODEL_PATH, ENCODER_PATH);
         ("pdfs/Report.PDF", MODEL_PATH, ENCODER_PATH)]
  = filter (λ f : string, is_pdf f) fake_entries.
Proof.
  split; [reflexivity |].
  destruct (main_gathers_one_task_per_pdf
              (services := fake_collaborators) (fs := fake_fs fake_entries)
              (VStr "key")
              [("pdfs/guide.pdf", MODEL_PATH, ENCODER_PATH);
               ("pdfs/Report.PDF", MODEL_PATH, ENCODER_PATH)] fake_entries)
    as (Hbases & _ & _); [reflexivity | reflexivity | by repeat constructor |].
  exact Hbases.
Defined.

Lemma gathered_documents_have_disjoint_identifiers_witness :
  NoDup fake_entries ∧
  (chunk_id (basename "pdfs/guide.pdf") 3 = chunk_id (basename "pdfs/guide.pdf") 3 →
   0%nat = 0%nat ∧ 3%nat = 3%nat).
Proof.
  assert (NoDup fake_entries) as Hnodup.
  { unfold fake_entries. repeat constructor; rewrite ?elem_of_cons, ?elem_of_nil;
      intros Hin; repeat destruct Hin as [Hin | Hin]; done. }
  split; [exact Hnodup |].
  apply (gathered_documents_have_disjoint_identifiers
           (services := fake_collaborators) (fs := fake_fs fake_entries)
           (VStr "key")
           [("pdfs/guide.pdf", MODEL_PATH, ENCODER_PATH);
            ("pdfs/Report.PDF", MODEL_PATH, ENCODER_PATH)] fake_entries
           0 0 ("pdfs/guide.pdf", MODEL_PATH, ENCODER_PATH)
           ("pdfs/guide.pdf", MODEL_PATH, ENCODER_PATH) 3 3);
    [reflexivity | reflexivity | by repeat constructor | exact Hnodup
     | reflexivity | reflexivity].
Defined.

Lemma view_function_escapes_witness :
  (∃ e,
     get_insights (builtins := fake_builtins) (console := utf8_stdout)
       (services := fake_collaborators)
       (Some mkRetrievalHandler) (Ok (VList [VStr "selection"])) indexed_world
     = (Raise e, indexed_world)) ∧
  (∃ e,
     get_insights (builtins := fake_builtins) (console := utf8_stdout)
       (services := fake_collaborators)
       (Some mkRetrievalHandler) (Ok (selection_request (VStr LONE_SURROGATE)))
       indexed_world
     = (Raise e, indexed_world)) ∧
  (∃ response w',
     get_insights (builtins := fake_builtins) (console := utf8_stdout)
       (services := fake_collaborators)
       (Some mkRetrievalHandler) (Ok (VList [VStr "question"])) indexed_world
     = (Ok response, w') ∧
     (status response = 200 ∨ status response = 400 ∨ status response = 500)).
Proof.
  split_and!.
  - apply (view_function_escapes (builtins := fake_builtins) (console := utf8_stdout)
             (services := fake_collaborators) mkRetrievalHandler
             (VList [VStr "selection"]) indexed_world).
    reflexivity.
  - apply (view_function_escapes (builtins := fake_builtins) (console := utf8_stdout)
             (services := fake_collaborators) mkRetrievalHandler
             (selection_request (VStr LONE_SURROGATE)) indexed_world).
    reflexivity.
  - apply (view_function_escapes (builtins := fake_builtins) (console := utf8_stdout)
             (services := fake_collaborators) mkRetrievalHandler
             (VList [VStr "question"]) indexed_world).
    reflexivity.
Defined.
